(** * Velocity AI front end: session and request layer

    A shallow embedding of the client code that resolves the bearer
    credential from the two browser stores, issues requests through
    [apiRequest], keeps the personal/workspace mode, and of the
    authentication context.

    Sources embedded here:
    - src/lib/api.ts              ([getAuthToken], [apiRequest], the API calls)
    - src/context/ModeContext.tsx ([getStoredMode], [setMode])
    - src/context/AuthContext.tsx ([DEFAULT_USER], [AuthProvider], [useAuth])
    - src/config/app.config.ts    ([APP_CONFIG])
    - src/pages/ai-activity-log.tsx, src/pages/project-detail.tsx (with
      the company dashboard), src/pages/settings.tsx,
      src/pages/integrations.tsx and the guarded App.tsx: the loaders and
      handlers of the pages that call into the above *)

From Stdlib Require Import Ascii String.
From stdpp Require Import base option list strings gmap pretty.

Set Warnings "-register-all,-clear-no-such-hyp".
Open Scope string_scope.
Open Scope Z_scope.

(** ** JavaScript values that the client handles *)

Module Js.

(** What [JSON.parse] can produce. Numbers are the integer valued ones
    (identifiers, statuses, counts), which is all the client computes
    with. An object keeps its properties in source order. *)
Inductive Json : Type :=
| JNull
| JBool (b : bool)
| JNum (n : Z)
| JStr (s : string)
| JArr (items : list Json)
| JObj (props : list (string * Json)).

(** A JavaScript value: [undefined], or a JSON value. *)
Definition JsValue : Type := option Json.
Definition undefined : JsValue := None.
Definition null : JsValue := Some JNull.

(** Exceptions that cross the client code. [Error] is the one the client
    builds itself with [new Error(message)]; the other two are raised by
    the engine ([fetch], property access, [ToString], [JSON.parse],
    [response.json()]) with engine specific messages. *)
Inductive JsExn : Type :=
| Error (message : string)
| TypeError
| SyntaxError.

(** The completion of a call: a value, or a thrown exception. For an
    [async] function [Return] is a fulfilled and [Throw] a rejected
    promise. *)
Inductive Completion (A : Type) : Type :=
| Return (a : A)
| Throw (e : JsExn).
Arguments Return {A} a.
Arguments Throw {A} e.

(** [ToBoolean]: the falsy values are [undefined], [null], [false], [0]
    and the empty string. *)
Definition ToBoolean (v : JsValue) : bool :=
  match v with
  | None => false
  | Some JNull => false
  | Some (JBool b) => b
  | Some (JNum n) => negb (n =? 0)
  | Some (JStr s) => negb (String.eqb s EmptyString)
  | Some (JArr _) => true
  | Some (JObj _) => true
  end.

(** [a || b] *)
Definition or_else (a b : JsValue) : JsValue := if ToBoolean a then a else b.

(** Own property of an object literal; when the JSON text repeated a key
    the last occurrence is the one the object has. *)
Fixpoint own_prop (k : string) (props : list (string * Json)) : option Json :=
  match props with
  | [] => None
  | (k', v) :: rest =>
      match own_prop k rest with
      | Some w => Some w
      | None => if String.eqb k' k then Some v else None
      end
  end.

(** [v.k] for the property names the client reads ([token], [detail],
    [id], [conversation_id], [response]), none of which is defined by a
    prototype: reading from [null] throws, an object answers with its own
    property, every other value answers [undefined]. *)
Definition get_prop (v : Json) (k : string) : Completion JsValue :=
  match v with
  | JNull => Throw TypeError
  | JObj props => Return (own_prop k props)
  | _ => Return undefined
  end.

(** [ToString] on a JSON value, as used by template literals and by
    [new Error(v)]. A plain object prints through [Object.prototype.toString]
    unless an own [toString] property (never callable in parsed JSON)
    shadows it, in which case the conversion throws a [TypeError]; an
    array joins its elements with commas, [null] elements printing as the
    empty string. [None] is the thrown [TypeError]. *)
Fixpoint ToString (j : Json) : option string :=
  match j with
  | JNull => Some "null"
  | JBool b => Some (if b then "true" else "false")
  | JNum n => Some (pretty n)
  | JStr s => Some s
  | JArr items =>
      (fix join (l : list Json) : option string :=
         match l with
         | [] => Some EmptyString
         | x :: rest =>
             let shown := match x with JNull => Some EmptyString | _ => ToString x end in
             match shown, join rest with
             | Some a, Some b =>
                 Some (a ++ match rest with [] => EmptyString | _ => "," ++ b end)
             | _, _ => None
             end
         end) items
  | JObj props =>
      match own_prop "toString" props with
      | Some _ => None
      | None => Some "[object Object]"
      end
  end.

End Js.
Export Js.

(** ** The host: what the browser and the build provide *)

(** [JSON_parse s] is [None] when [JSON.parse(s)] throws a [SyntaxError],
    which it does on the empty text. [VITE_API_URL] is the build-time
    environment variable; [load_time] is [new Date().toISOString()] at the
    moment AuthContext.tsx is loaded. *)
Class Host : Type := {
  JSON_parse : string -> option Json;
  JSON_stringify : Json -> string;
  VITE_API_URL : option string;
  load_time : string;
  JSON_parse_empty : JSON_parse EmptyString = None;
}.

(** ** app.config.ts *)

Module APP_CONFIG.
Definition name : string := "Velocity AI".

Module storageKeys.
Definition user : string := "velocity_ai_user".
Definition remember : string := "velocity_ai_remember".
End storageKeys.

Module api.
(** [import.meta.env.VITE_API_URL || 'http://localhost:8000'] *)
Definition baseUrl `{Host} : string :=
  match VITE_API_URL with
  | Some u => if String.eqb u EmptyString then "http://localhost:8000" else u
  | None => "http://localhost:8000"
  end.
End api.

Module dev.
Definition bypassLogin : bool := true.
End dev.

End APP_CONFIG.

(** ** The browser state and the async monad *)

(** What is handed to [fetch]: the URL and the merged options. *)
Record Request : Type := {
  req_url : string;
  req_method : option string;
  req_headers : gmap string string;
  req_body : option string;
}.

(** What [fetch] hands back: the status and the raw text of the body
    (a body-less response has the empty text). *)
Record Response : Type := {
  status : Z;
  text : string;
}.

(** [response.ok]: the status is in the range 200-299. *)
Definition ok (r : Response) : bool := (200 <=? status r) && (status r <=? 299).

Inductive FetchResult : Type :=
| NetworkFailure
| Responded (r : Response).

(** The remote side: its answer to a request may depend on the requests
    it has seen before. *)
Definition Network : Type := list Request -> Request -> FetchResult.

Record World : Type := {
  localStorage : gmap string string;
  sessionStorage : gmap string string;
  network : Network;
  sent : list Request;   (* the requests issued so far, oldest first *)
}.

(** [storage.getItem(key)]: the stored string, or [null]. *)
Definition getItem (storage : gmap string string) (key : string) : option string :=
  storage !! key.

(** [storage.setItem(key, value)] *)
Definition setItem (storage : gmap string string) (key value : string) : gmap string string :=
  <[key := value]> storage.

(** Truthiness of a [string | null]. *)
Definition item_truthy (item : option string) : bool :=
  match item with
  | Some s => negb (String.eqb s EmptyString)
  | None => false
  end.

(** An [async] computation over the browser state. *)
Definition Async (A : Type) : Type := World -> Completion A * World.

Definition ret {A} (a : A) : Async A := fun w => (Return a, w).
Definition throw {A} (e : JsExn) : Async A := fun w => (Throw e, w).
Definition bind {A B} (m : Async A) (k : A -> Async B) : Async B :=
  fun w =>
    match m w with
    | (Return a, w') => k a w'
    | (Throw e, w') => (Throw e, w')
    end.
(** [try { body } catch (e) { handler }] *)
Definition try_catch {A} (body : Async A) (handler : JsExn -> Async A) : Async A :=
  fun w =>
    match body w with
    | (Return a, w') => (Return a, w')
    | (Throw e, w') => handler e w'
    end.
Definition lift {A} (c : Completion A) : Async A := fun w => (c, w).
Definition reads {A} (f : World -> A) : Async A := fun w => (Return (f w), w).

Notation "'await' x := m 'in' k" := (bind m (fun x => k))
  (at level 10, x name, m at level 100, k at level 200).

(** The world once [req] has gone out. *)
Definition sending (req : Request) (w : World) : World :=
  {| localStorage := localStorage w;
     sessionStorage := sessionStorage w;
     network := network w;
     sent := sent w ++ [req] |}.

(** [fetch(url, init)]: the request goes out, and an unreachable network
    rejects with the engine's [TypeError]. *)
Definition fetch (req : Request) : Async Response :=
  fun w =>
    match network w (sent w) req with
    | NetworkFailure => (Throw TypeError, sending req w)
    | Responded r => (Return r, sending req w)
    end.

(** ** src/lib/api.ts *)

Module Api.
Section WithHost.
Context `{Host}.

Definition API_BASE_URL : string := APP_CONFIG.api.baseUrl.

(** The body of both [try] blocks of [getAuthToken]:
    [try { const parsed = JSON.parse(stored); return parsed.token || null; }
     catch { return null; }] *)
Definition token_of_stored (stored : string) : JsValue :=
  match JSON_parse stored with
  | Some parsed =>
      match get_prop parsed "token" with
      | Return token => or_else token null
      | Throw _ => null
      end
  | None => null
  end.

Definition getAuthToken (w : World) : JsValue :=
  let localUser := getItem (localStorage w) APP_CONFIG.storageKeys.user in
  if item_truthy localUser then token_of_stored (default EmptyString localUser)
  else
    let sessionUser := getItem (sessionStorage w) APP_CONFIG.storageKeys.user in
    if item_truthy sessionUser then token_of_stored (default EmptyString sessionUser)
    else null.

(** [RequestInit], as far as the client uses it. *)
Record RequestInit : Type := {
  method : option string;
  headers : option (gmap string string);
  body : option string;
}.

(** The default [options = {}]. *)
Definition no_options : RequestInit :=
  {| method := None; headers := None; body := None |}.

(** [{ "Content-Type": "application/json", ...(options.headers || {}) }]:
    a header of the caller overrides the default one. *)
Definition base_headers (options : RequestInit) : gmap string string :=
  default ∅ (headers options) ∪ {[ "Content-Type" := "application/json" ]}.

(** [if (token) headers["Authorization"] = `Bearer ${token}`] *)
Definition with_authorization (token : JsValue) (hdrs : gmap string string)
  : Completion (gmap string string) :=
  if ToBoolean token then
    match token ≫= ToString with
    | Some shown => Return (<["Authorization" := "Bearer " ++ shown]> hdrs)
    | None => Throw TypeError
    end
  else Return hdrs.

(** [response.json()] *)
Definition json (response : Response) : Completion Json :=
  match JSON_parse (text response) with
  | Some j => Return j
  | None => Throw SyntaxError
  end.

(** [response.json().catch(() => ({ detail: `Request failed with status ${response.status}` }))] *)
Definition error_body (response : Response) : Json :=
  match json response with
  | Return j => j
  | Throw _ => JObj [("detail", JStr ("Request failed with status " ++ pretty (status response)))]
  end.

(** [new Error(message)]: an [undefined] argument leaves the message
    empty, any other is converted with [ToString]. *)
Definition new_Error (message : JsValue) : Completion JsExn :=
  match message with
  | None => Return (Error EmptyString)
  | Some j =>
      match ToString j with
      | Some s => Return (Error s)
      | None => Throw TypeError
      end
  end.

(** [fetch(`${API_BASE_URL}${endpoint}`, { ...options, headers })] *)
Definition request (endpoint : string) (options : RequestInit) (hdrs : gmap string string)
  : Request :=
  {| req_url := API_BASE_URL ++ endpoint;
     req_method := method options;
     req_headers := hdrs;
     req_body := body options |}.

Definition apiRequest (endpoint : string) (options : RequestInit) : Async JsValue :=
  await token := reads getAuthToken in
  await hdrs := lift (with_authorization token (base_headers options)) in
  await response := fetch (request endpoint options hdrs) in
  if negb (ok response) then
    let error := error_body response in
    await detail := lift (get_prop error "detail") in
    await e := lift (new_Error detail) in
    throw e
  else if status response =? 204 then
    ret undefined
  else
    await j := lift (json response) in
    ret (Some j).

(** An object literal handed to [JSON.stringify]: a property whose value
    is [undefined] is left out of the text. *)
Definition object_literal (fields : list (string * JsValue)) : Json :=
  JObj (omap (fun '(k, v) => match v with Some j => Some (k, j) | None => None end) fields).

(** [sendChatMessage(message, mode = "personal", conversationId?)] *)
Definition sendChatMessage (message : string) (mode conversationId : option string)
  : Async JsValue :=
  let mode := default "personal" mode in
  apiRequest "/api/chat"
    {| method := Some "POST";
       headers := None;
       body := Some (JSON_stringify (object_literal
                 [("message", Some (JStr message));
                  ("mode", Some (JStr mode));
                  ("conversation_id", JStr <$> conversationId)])) |}.

(** [createConversation(userId, title?)] *)
Definition createConversation (userId : Z) (title : option string) : Async JsValue :=
  apiRequest "/api/conversations"
    {| method := Some "POST";
       headers := None;
       body := Some (JSON_stringify (object_literal
                 [("user_id", Some (JNum userId));
                  ("title", JStr <$> title)])) |}.

Definition getUserConversations (userId : Z) : Async JsValue :=
  apiRequest ("/api/conversations/" ++ pretty userId) no_options.

Definition getConversationMessages (conversationId : Z) : Async JsValue :=
  apiRequest ("/api/conversations/" ++ pretty conversationId ++ "/messages") no_options.

Definition updateConversationTitle (conversationId : Z) (title : string) : Async JsValue :=
  apiRequest ("/api/conversations/" ++ pretty conversationId)
    {| method := Some "PUT";
       headers := None;
       body := Some (JSON_stringify (object_literal [("title", Some (JStr title))])) |}.

Definition deleteConversation (conversationId : Z) : Async JsValue :=
  apiRequest ("/api/conversations/" ++ pretty conversationId)
    {| method := Some "DELETE"; headers := None; body := None |}.

Definition healthCheck : Async JsValue := apiRequest "/health" no_options.

(** [getIntegrationStatus()] *)
Definition getIntegrationStatus : Async JsValue :=
  apiRequest "/api/integrations/status" no_options.

(** [getGoogleConnectUrl(service = "google")]: builds the address, calls
    nothing. *)
Definition getGoogleConnectUrl (service : option string) : string :=
  let service := default "google" service in
  API_BASE_URL ++ "/api/integrations/google/connect?service=" ++ service.

Definition getProjects : Async JsValue := apiRequest "/api/projects" no_options.

Definition getProjectDetail (projectId : string) : Async JsValue :=
  apiRequest ("/api/projects/" ++ projectId) no_options.

Definition getPriorities : Async JsValue := apiRequest "/api/priorities" no_options.

(** [getActivityLog(mode?)]: [const query = mode ? `?mode=${mode}` : ""] *)
Definition getActivityLog (mode : option string) : Async JsValue :=
  let query := if item_truthy mode then "?mode=" ++ default EmptyString mode
               else EmptyString in
  apiRequest ("/api/activity-log" ++ query) no_options.

End WithHost.
End Api.

(** ** src/context/ModeContext.tsx *)

Module ModeContext.

Inductive AppMode : Type := personal | workspace.

(** The string an [AppMode] is at run time. *)
Definition mode_name (m : AppMode) : string :=
  match m with
  | personal => "personal"
  | workspace => "workspace"
  end.

Definition MODE_STORAGE_KEY : string := "velocity_ai_mode".

Definition getStoredMode (w : World) : AppMode :=
  let stored := getItem (localStorage w) MODE_STORAGE_KEY in
  match stored with
  | Some s =>
      if String.eqb s "workspace" then workspace
      else if String.eqb s "personal" then personal
      else personal
  | None => personal
  end.

(** The provider holds one state cell, [mode], created by
    [useState(() => getStoredMode())]. *)
Record Provider : Type := { mode : AppMode }.

Definition ModeProvider (w : World) : Provider := {| mode := getStoredMode w |}.

Definition isWorkspace (p : Provider) : bool :=
  match mode p with workspace => true | personal => false end.

(** [setMode(newMode)]: [setModeState(newMode)] and then
    [localStorage.setItem(MODE_STORAGE_KEY, newMode)]. *)
Definition setMode (newMode : AppMode) (pw : Provider * World) : Provider * World :=
  let w := pw.2 in
  ({| mode := newMode |},
   {| localStorage := setItem (localStorage w) MODE_STORAGE_KEY (mode_name newMode);
      sessionStorage := sessionStorage w;
      network := network w;
      sent := sent w |}).

End ModeContext.

(** ** src/context/AuthContext.tsx *)

Module AuthContext.
Section WithHost.
Context `{Host}.

(** [User] of api.ts *)
Record User : Type := {
  id : Z;
  email : string;
  name : option string;
  token : option string;
  created_at : option string;
}.

(** [UserUpdate] of api.ts: the optional [email], [password] and [name]. *)
Record UserUpdate : Type := {
  new_email : option string;
  new_password : option string;
  new_name : option string;
}.

Definition DEFAULT_USER : User :=
  {| id := 1;
     email := "user@velocity.ai";
     name := Some "Velocity User";
     token := Some "local-dev";
     created_at := Some load_time |}.

Record AuthContextType : Type := {
  user : option User;
  isLoading : bool;
  isAuthenticated : bool;
  login : string -> string -> option bool -> Async User;
  signup : string -> string -> option string -> Async User;
  updateProfile : UserUpdate -> Async User;
  logout : Async unit;
}.

(** The [value] that [AuthProvider] hands to its children. *)
Definition AuthProvider : AuthContextType :=
  {| user := Some DEFAULT_USER;
     isLoading := false;
     isAuthenticated := true;
     login := fun _ _ _ => ret DEFAULT_USER;
     signup := fun _ _ _ => ret DEFAULT_USER;
     updateProfile := fun _ => ret DEFAULT_USER;
     logout := ret tt |}.

(** [useAuth()]: [context] is [None] outside of a provider. *)
Definition useAuth (context : option AuthContextType) : AuthContextType :=
  match context with
  | None =>
      {| user := Some DEFAULT_USER;
         isLoading := false;
         isAuthenticated := true;
         login := fun _ _ _ => ret DEFAULT_USER;
         signup := fun _ _ _ => ret DEFAULT_USER;
         updateProfile := fun _ => ret DEFAULT_USER;
         logout := ret tt |}
  | Some c => c
  end.

End WithHost.
End AuthContext.

(** ** A reference host

    A host to run the client on concrete texts: a recursive descent
    reader of JSON (objects, arrays, strings with the two-character
    escapes, integers, [true], [false], [null]; a number with a fraction
    or an exponent and a [\u] escape are refused) and the matching
    printer. *)

Module RefHost.

Definition quote : ascii := "034"%char.
Definition backslash : ascii := "092"%char.

Definition is_ws (c : ascii) : bool :=
  let n := nat_of_ascii c in
  ((n =? 32) || (n =? 9) || (n =? 10) || (n =? 13))%nat.

Fixpoint skip_ws (s : string) : string :=
  match s with
  | String c r => if is_ws c then skip_ws r else s
  | EmptyString => s
  end.

Fixpoint strip_prefix (p s : string) : option string :=
  match p, s with
  | EmptyString, _ => Some s
  | String a p', String b s' => if Ascii.eqb a b then strip_prefix p' s' else None
  | String _ _, EmptyString => None
  end.

Definition digit_of (c : ascii) : option Z :=
  let n := nat_of_ascii c in
  if ((48 <=? n) && (n <=? 57))%nat then Some (Z.of_nat (n - 48)) else None.

Fixpoint read_digits (acc : Z) (s : string) : Z * string :=
  match s with
  | String c r =>
      match digit_of c with
      | Some d => read_digits (10 * acc + d) r
      | None => (acc, s)
      end
  | EmptyString => (acc, s)
  end.

(** An integer without a leading zero, and no fraction or exponent
    after it. *)
Definition read_unsigned (s : string) : option (Z * string) :=
  match s with
  | String c r =>
      match digit_of c with
      | Some d =>
          let '(n, rest) := if d =? 0 then (0, r) else read_digits d r in
          match rest with
          | String c' _ =>
              if Ascii.eqb c' "." || Ascii.eqb c' "e" || Ascii.eqb c' "E"
                 || bool_decide (is_Some (digit_of c'))
              then None else Some (n, rest)
          | EmptyString => Some (n, rest)
          end
      | None => None
      end
  | EmptyString => None
  end.

Definition unescape (c : ascii) : option ascii :=
  if Ascii.eqb c quote then Some quote
  else if Ascii.eqb c backslash then Some backslash
  else if Ascii.eqb c "/" then Some "/"%char
  else if Ascii.eqb c "b" then Some "008"%char
  else if Ascii.eqb c "f" then Some "012"%char
  else if Ascii.eqb c "n" then Some "010"%char
  else if Ascii.eqb c "r" then Some "013"%char
  else if Ascii.eqb c "t" then Some "009"%char
  else None.

(** The characters of a string literal after its opening quote. *)
Fixpoint read_chars (s : string) : option (string * string) :=
  match s with
  | EmptyString => None
  | String c r =>
      if Ascii.eqb c quote then Some (EmptyString, r)
      else if Ascii.eqb c backslash then
        match r with
        | String e r' =>
            match unescape e, read_chars r' with
            | Some ch, Some (str, rest) => Some (String ch str, rest)
            | _, _ => None
            end
        | EmptyString => None
        end
      else if (nat_of_ascii c <? 32)%nat then None
      else
        match read_chars r with
        | Some (str, rest) => Some (String c str, rest)
        | None => None
        end
  end.

Fixpoint read_value (fuel : nat) (s : string) : option (Json * string) :=
  match fuel with
  | O => None
  | S fuel =>
      match skip_ws s with
      | EmptyString => None
      | String c r as s' =>
          if Ascii.eqb c "n" then (fun rest => (JNull, rest)) <$> strip_prefix "ull" r
          else if Ascii.eqb c "t" then (fun rest => (JBool true, rest)) <$> strip_prefix "rue" r
          else if Ascii.eqb c "f" then (fun rest => (JBool false, rest)) <$> strip_prefix "alse" r
          else if Ascii.eqb c quote then
            (fun '(str, rest) => (JStr str, rest)) <$> read_chars r
          else if Ascii.eqb c "-" then
            (fun '(n, rest) => (JNum (- n), rest)) <$> read_unsigned r
          else if Ascii.eqb c "[" then
            match skip_ws r with
            | String "]" rest => Some (JArr [], rest)
            | _ => (fun '(items, rest) => (JArr items, rest)) <$> read_items fuel r
            end
          else if Ascii.eqb c "{" then
            match skip_ws r with
            | String "}" rest => Some (JObj [], rest)
            | _ => (fun '(props, rest) => (JObj props, rest)) <$> read_members fuel r
            end
          else (fun '(n, rest) => (JNum n, rest)) <$> read_unsigned s'
      end
  end
with read_items (fuel : nat) (s : string) : option (list Json * string) :=
  match fuel with
  | O => None
  | S fuel =>
      match read_value fuel s with
      | Some (v, r) =>
          match skip_ws r with
          | String "," r' => (fun '(vs, rest) => (v :: vs, rest)) <$> read_items fuel r'
          | String "]" rest => Some ([v], rest)
          | _ => None
          end
      | None => None
      end
  end
with read_members (fuel : nat) (s : string) : option (list (string * Json) * string) :=
  match fuel with
  | O => None
  | S fuel =>
      match skip_ws s with
      | String c r =>
          if Ascii.eqb c quote then
            match read_chars r with
            | Some (k, r1) =>
                match skip_ws r1 with
                | String ":" r2 =>
                    match read_value fuel r2 with
                    | Some (v, r3) =>
                        match skip_ws r3 with
                        | String "," r4 =>
                            (fun '(ps, rest) => ((k, v) :: ps, rest)) <$> read_members fuel r4
                        | String "}" rest => Some ([(k, v)], rest)
                        | _ => None
                        end
                    | None => None
                    end
                | _ => None
                end
            | None => None
            end
          else None
      | EmptyString => None
      end
  end.

Definition parse (s : string) : option Json :=
  match read_value (2 * String.length s + 2) s with
  | Some (v, rest) =>
      match skip_ws rest with
      | EmptyString => Some v
      | String _ _ => None
      end
  | None => None
  end.

Definition hex_digit (n : nat) : ascii :=
  ascii_of_nat (if (n <? 10)%nat then 48 + n else 87 + n).

Definition escape (c : ascii) : string :=
  let n := nat_of_ascii c in
  if Ascii.eqb c quote then String backslash (String quote EmptyString)
  else if Ascii.eqb c backslash then String backslash (String backslash EmptyString)
  else if (n =? 8)%nat then String backslash "b"
  else if (n =? 12)%nat then String backslash "f"
  else if (n =? 10)%nat then String backslash "n"
  else if (n =? 13)%nat then String backslash "r"
  else if (n =? 9)%nat then String backslash "t"
  else if (n <? 32)%nat then
    String backslash ("u00" ++ String (hex_digit (n / 16)) (String (hex_digit (n mod 16)) EmptyString))
  else String c EmptyString.

Fixpoint escape_all (s : string) : string :=
  match s with
  | EmptyString => EmptyString
  | String c r => escape c ++ escape_all r
  end.

Definition quoted (s : string) : string :=
  String quote (escape_all s ++ String quote EmptyString).

Fixpoint stringify (j : Json) : string :=
  match j with
  | JNull => "null"
  | JBool b => if b then "true" else "false"
  | JNum n => pretty n
  | JStr s => quoted s
  | JArr items =>
      "[" ++ (fix go (l : list Json) : string :=
                match l with
                | [] => EmptyString
                | [x] => stringify x
                | x :: rest => stringify x ++ "," ++ go rest
                end) items ++ "]"
  | JObj props =>
      "{" ++ (fix go (l : list (string * Json)) : string :=
                match l with
                | [] => EmptyString
                | [(k, v)] => quoted k ++ ":" ++ stringify v
                | (k, v) :: rest => quoted k ++ ":" ++ stringify v ++ "," ++ go rest
                end) props ++ "}"
  end.

Definition host : Host :=
  {| JSON_parse := parse;
     JSON_stringify := stringify;
     VITE_API_URL := None;
     load_time := "2026-01-01T00:00:00.000Z";
     JSON_parse_empty := eq_refl |}.

End RefHost.

(** ** src/pages/ai-activity-log.tsx *)

Module AIActivityLog.
Section WithHost.
Context `{Host}.

(** [ActivityLogEntry] of api.ts *)
Record ActivityLogEntry : Type := {
  id : string;
  timestamp : string;
  action : string;
  source : string;
  mode : string;
  project : option string;
  details : option string;
}.

(** The state cells of the page. [entries] holds whatever the decoded
    response was. *)
Record Page : Type := {
  entries : JsValue;
  loading : bool;
  filter : option string;
}.

(** [useState([])], [useState(true)], [useState(null)] *)
Definition mount : Page :=
  {| entries := Some (JArr []); loading := true; filter := None |}.

(** [load()] of the effect: [setLoading(true)], then
    [try { setEntries(await getActivityLog()) } catch { console.error }
     finally { setLoading(false) }]. *)
Definition load (p : Page) : Async Page :=
  let started := {| entries := entries p; loading := true; filter := filter p |} in
  await tried :=
    try_catch
      (await data := Api.getActivityLog None in
       ret {| entries := data; loading := loading started; filter := filter started |})
      (fun _ => ret started) in
  ret {| entries := entries tried; loading := false; filter := filter tried |}.

(** The page computes what it shows from [entries] read at their
    declared type, [ActivityLogEntry[]]; the three definitions below take
    the entries at that type.

    [[...new Set(xs)]]: the distinct members, each at its first place. *)
Fixpoint distinct (xs : list string) : list string :=
  match xs with
  | [] => []
  | x :: rest => x :: base.filter (fun y => y <> x) (distinct rest)
  end.

(** [const sources = [...new Set(entries.map((e) => e.source))]] *)
Definition sources (shown : list ActivityLogEntry) : list string :=
  distinct (source <$> shown).

(** [entries.filter((e) => e.source === s)] *)
Definition of_source (s : string) (shown : list ActivityLogEntry) : list ActivityLogEntry :=
  base.filter (fun e => source e = s) shown.

(** [const filtered = filter ? entries.filter((e) => e.source === filter) : entries] *)
Definition filtered (chosen : option string) (shown : list ActivityLogEntry)
  : list ActivityLogEntry :=
  if item_truthy chosen then of_source (default EmptyString chosen) shown else shown.

(** The click on the button of a source:
    [setFilter(filter === source ? null : source)]. *)
Definition toggle (chosen : option string) (s : string) : option string :=
  if bool_decide (chosen = Some s) then None else Some s.

End WithHost.
End AIActivityLog.

(** ** src/pages/project-detail.tsx *)

Module ProjectDetailPage.
Section WithHost.
Context `{Host}.

Record Page : Type := {
  data : JsValue;
  loading : bool;
  error : option string;
}.

(** [useState(null)], [useState(true)], [useState(null)] *)
Definition mount : Page := {| data := null; loading := true; error := None |}.

(** [load()] of the effect, for the [projectId] of the route:
    [if (!projectId) return;
     try { setData(await getProjectDetail(projectId)) }
     catch (err) { setError("Project not found") }
     finally { setLoading(false) }]. *)
Definition load (projectId : option string) (p : Page) : Async Page :=
  if negb (item_truthy projectId) then ret p
  else
    await tried :=
      try_catch
        (await detail := Api.getProjectDetail (default EmptyString projectId) in
         ret {| data := detail; loading := loading p; error := error p |})
        (fun _ => ret {| data := data p; loading := loading p;
                         error := Some "Project not found" |}) in
    ret {| data := data tried; loading := false; error := error tried |}.

(** Which of the three returns of the component is taken. *)
Inductive View : Type :=
| Spinner
| Problem (message : string)
| Detail (shown : JsValue).

(** [if (loading) ...; if (error || !data) ... {error || "Something went wrong"}] *)
Definition view (p : Page) : View :=
  if loading p then Spinner
  else if item_truthy (error p) || negb (ToBoolean (data p)) then
    Problem (if item_truthy (error p) then default EmptyString (error p)
             else "Something went wrong")
  else Detail (data p).

End WithHost.
End ProjectDetailPage.

Module CompanyDashboard.
Section WithHost.
Context `{Host}.

Record Page : Type := {
  projects : JsValue;
  priorities : JsValue;
  loading : bool;
}.

(** [useState([])], [useState([])], [useState(true)] *)
Definition mount : Page :=
  {| projects := Some (JArr []); priorities := Some (JArr []); loading := true |}.

(** [Promise.all([a, b])] of two calls made one after the other: both
    are started, the second whatever becomes of the first, and the result
    is fulfilled only when both are. A rejection is that of the failed
    call (of the first one when both fail); the page does not look at
    it. *)
Definition Promise_all {A B} (a : Async A) (b : Async B) : Async (A * B) :=
  fun w =>
    let ra := a w in
    let rb := b ra.2 in
    match ra.1, rb.1 with
    | Return x, Return y => (Return (x, y), rb.2)
    | Throw e, _ => (Throw e, rb.2)
    | Return _, Throw e => (Throw e, rb.2)
    end.

(** [load()] of the effect:
    [try { const [p, pr] = await Promise.all([getProjects(), getPriorities()]);
           setProjects(p); setPriorities(pr) }
     catch { console.error } finally { setLoading(false) }]. *)
Definition load (p : Page) : Async Page :=
  await tried :=
    try_catch
      (await both := Promise_all Api.getProjects Api.getPriorities in
       ret {| projects := both.1; priorities := both.2; loading := loading p |})
      (fun _ => ret p) in
  ret {| projects := projects tried; priorities := priorities tried; loading := false |}.

End WithHost.
End CompanyDashboard.

(** ** src/pages/settings.tsx *)

Module Settings.
Section WithHost.
Context `{Host}.

(** [document.documentElement.classList] *)
Record Document : Type := { classList : gset string }.

Inductive Timer : Type := CloseEditProfile.

Record Page : Type := {
  isDark : bool;
  isEditProfileOpen : bool;
  editName : string;
  editEmail : string;
  editPassword : string;
  isUpdatingProfile : bool;
  profileError : option string;
  profileSuccess : option string;
  timers : list (Z * Timer);   (* what [setTimeout] has scheduled, in milliseconds *)
}.

Definition set_isDark (b : bool) (p : Page) : Page :=
  {| isDark := b; isEditProfileOpen := isEditProfileOpen p; editName := editName p;
     editEmail := editEmail p; editPassword := editPassword p;
     isUpdatingProfile := isUpdatingProfile p; profileError := profileError p;
     profileSuccess := profileSuccess p; timers := timers p |}.

(** The first effect: [setIsDark(classList.contains("dark"))]. *)
Definition check_theme (p : Page) (d : Document) : Page :=
  set_isDark (bool_decide ("dark" ∈ classList d)) p.

(** [toggleTheme()] *)
Definition toggleTheme (st : Page * Document * World) : Page * Document * World :=
  let '(p, d, w) := st in
  let newDarkMode := negb (isDark p) in
  let store (value : string) : World :=
    {| localStorage := setItem (localStorage w) "theme" value;
       sessionStorage := sessionStorage w;
       network := network w;
       sent := sent w |} in
  if newDarkMode then
    (set_isDark newDarkMode p, {| classList := classList d ∪ {[ "dark" ]} |}, store "dark")
  else
    (set_isDark newDarkMode p, {| classList := classList d ∖ {[ "dark" ]} |}, store "light").

(** [err instanceof Error ? err.message : fallback]: every exception of
    the model is an [Error] instance; the message of one that the engine
    raised is the engine's own text. *)
Definition message_of (engine_text : JsExn -> string) (err : JsExn) : string :=
  match err with
  | Error message => message
  | _ => engine_text err
  end.

(** [handleUpdateProfile(e)] *)
Definition handleUpdateProfile (auth : AuthContext.AuthContextType)
    (engine_text : JsExn -> string) (p : Page) : Async Page :=
  match AuthContext.user auth with
  | None => ret p
  | Some _ =>
      let started (failure success : option string) (scheduled : list (Z * Timer)) : Page :=
        {| isDark := isDark p; isEditProfileOpen := isEditProfileOpen p;
           editName := editName p; editEmail := editEmail p;
           editPassword := editPassword p; isUpdatingProfile := true;
           profileError := failure; profileSuccess := success;
           timers := scheduled |} in
      await tried :=
        try_catch
          (await _ := AuthContext.updateProfile auth
                        {| AuthContext.new_email := Some (editEmail p);
                           AuthContext.new_password :=
                             if String.eqb (editPassword p) EmptyString then None
                             else Some (editPassword p);
                           AuthContext.new_name := Some (editName p) |} in
           ret (started None (Some "Profile updated successfully!")
                  (timers p ++ [(1500, CloseEditProfile)])%list))
          (fun err => ret (started (Some (message_of engine_text err)) None (timers p))) in
      ret {| isDark := isDark tried; isEditProfileOpen := isEditProfileOpen tried;
             editName := editName tried; editEmail := editEmail tried;
             editPassword := editPassword tried; isUpdatingProfile := false;
             profileError := profileError tried; profileSuccess := profileSuccess tried;
             timers := timers tried |}
  end.

End WithHost.
End Settings.

(** ** src/pages/integrations.tsx *)

Module Integrations.
Section WithHost.
Context `{Host}.

Record Page : Type := {
  integrations : JsValue;
  isLoading : bool;
  error : option string;
}.

(** [useState([])], [useState(true)], [useState(null)] *)
Definition mount : Page :=
  {| integrations := Some (JArr []); isLoading := true; error := None |}.

(** [loadIntegrations()]: [setIsLoading(true)], then
    [try { setIntegrations(await getIntegrationStatus()); setError(null) }
     catch (err) { setError(err instanceof Error ? err.message : ...) }
     finally { setIsLoading(false) }]. *)
Definition loadIntegrations (engine_text : JsExn -> string) (p : Page) : Async Page :=
  let started := {| integrations := integrations p; isLoading := true; error := error p |} in
  await tried :=
    try_catch
      (await data := Api.getIntegrationStatus in
       ret {| integrations := data; isLoading := isLoading started; error := None |})
      (fun err =>
         ret {| integrations := integrations started; isLoading := isLoading started;
                error := Some (Settings.message_of engine_text err) |}) in
  ret {| integrations := integrations tried; isLoading := false; error := error tried |}.

End WithHost.
End Integrations.

(** ** src/App.tsx with the protected routes *)

Module App.
Section WithHost.
Context `{Host}.

(** What a route wrapper renders. *)
Inductive Rendered : Type :=
| Children
| LoadingScreen
| Navigate (to : string).

(** [ProtectedRoute], for a value of the development switch. *)
Definition ProtectedRoute_under (bypassLogin : bool) (auth : AuthContext.AuthContextType)
  : Rendered :=
  if bypassLogin then Children
  else if AuthContext.isLoading auth then LoadingScreen
  else if negb (AuthContext.isAuthenticated auth) then Navigate "/login"
  else Children.

(** [ProtectedRoute] as configured: [APP_CONFIG.dev.bypassLogin]. *)
Definition ProtectedRoute (context : option AuthContext.AuthContextType) : Rendered :=
  ProtectedRoute_under APP_CONFIG.dev.bypassLogin (AuthContext.useAuth context).

End WithHost.
End App.

(** ** The conversation synchronizer *)

Module ConversationSynchronizer.
Section WithHost.
Context `{Host}.

Inductive Role : Type := user | assistant.

Inductive Delivery : Type := pending | delivered | failed.

(** Modelled from the spec: the failure taxonomy of its section 7, which
    the sources do not declare: no answer from the remote side, an answer
    outside the success range with its message, or a success whose body
    has not the expected shape. *)
Inductive Failure : Type :=
| TransportError
| ServiceError (message : string)
| DecodeError.

(** Modelled from the spec: an entry of the in-memory conversation list
    (section 3), which the sources do not declare: its identity, and the
    object the remote service delivered for it. Identifiers are numbers,
    as in [Conversation] and [Message] of api.ts. *)
Record Conversation : Type := {
  id : Z;
  remote : Json;
}.

(** Modelled from the spec: a message of the in-memory sequence
    (sections 3 and 4.3), with the delivery status that only the client
    keeps. *)
Record Message : Type := {
  conversationId : Z;
  role : Role;
  content : string;
  delivery : Delivery;
}.

(** Modelled from the spec: the state the synchronizer owns (section
    4.3): the conversation list, the message sequence and the active
    selection. *)
Record Sync : Type := {
  conversations : list Conversation;
  messages : list Message;
  activeConversationId : option Z;
}.

Definition empty : Sync :=
  {| conversations := []; messages := []; activeConversationId := None |}.

Definition failure_of (e : JsExn) : Failure :=
  match e with
  | Error message => ServiceError message
  | TypeError => TransportError
  | SyntaxError => DecodeError
  end.

(** Modelled from the spec: the conversation in a create response, an
    object with a numeric [id]. *)
Definition conversation_of (created : Json) : option Conversation :=
  match get_prop created "id" with
  | Return (Some (JNum n)) => Some {| id := n; remote := created |}
  | _ => None
  end.

(** Modelled from the spec: the identity and the assistant text in a
    chat response, [conversation_id] and [response] of section 6. *)
Definition reply_of (reply : Json) : option (Z * string) :=
  match get_prop reply "conversation_id", get_prop reply "response" with
  | Return (Some (JNum n)), Return (Some (JStr answer)) => Some (n, answer)
  | _, _ => None
  end.

(** Modelled from the spec: reconciling to the id the server returns
    (section 4.3, step 3): the entry known as [old] becomes known as
    [new]. *)
Definition reidentify (old new : Z) (cs : list Conversation) : list Conversation :=
  (fun c => if id c =? old then {| id := new; remote := remote c |} else c) <$> cs.

(** Modelled from the spec: step 1 of [send] (section 4.3). The target
    is the active conversation, or else a conversation created now,
    without a title, whose returned id is adopted. *)
Definition target_of (userId : Z) (s : Sync) : Async (Sync * (Z + Failure)) :=
  match activeConversationId s with
  | Some target => ret (s, inl target)
  | None =>
      try_catch
        (await created := Api.createConversation userId None in
         match created ≫= conversation_of with
         | Some c =>
             ret ({| conversations := c :: conversations s;
                     messages := messages s;
                     activeConversationId := Some (id c) |}, inl (id c))
         | None => ret (s, inr DecodeError)
         end)
        (fun e => ret (s, inr (failure_of e)))
  end.

(** Modelled from the spec: [send(userText, activeConversationId?)] of
    the ConversationSynchronizer (section 4.3), whose code, the chat
    page, is not among the sources; the calls it makes are
    [createConversation] and [sendChatMessage] of api.ts above. Without
    an active conversation it first creates one and adopts the returned
    id; it then issues the chat call with that id and the current mode;
    on success the user message and the message made from the response
    are appended for the conversation the server names, to which the
    entry and the active selection are reconciled; on failure the user
    message stays, marked failed, and the failure is handed upward. *)
Definition send (userId : Z) (mode : ModeContext.AppMode) (userText : string) (s : Sync)
  : Async (Sync * option Failure) :=
  await targeted := target_of userId s in
  match targeted with
  | (s1, inr failure) => ret (s1, Some failure)
  | (s1, inl target) =>
      let from_user (cid : Z) (status : Delivery) : Message :=
        {| conversationId := cid; role := user; content := userText; delivery := status |} in
      let fail_with (failure : Failure) : Sync * option Failure :=
        ({| conversations := conversations s1;
            messages := messages s1 ++ [from_user target failed];
            activeConversationId := activeConversationId s1 |}, Some failure) in
      try_catch
        (await reply := Api.sendChatMessage userText (Some (ModeContext.mode_name mode))
                          (Some (pretty target)) in
         match reply ≫= reply_of with
         | Some (confirmed, answer) =>
             ret ({| conversations := reidentify target confirmed (conversations s1);
                     messages := messages s1 ++
                       [from_user confirmed delivered;
                        {| conversationId := confirmed; role := assistant;
                           content := answer; delivery := delivered |}];
                     activeConversationId := Some confirmed |}, None)
         | None => ret (fail_with DecodeError)
         end)
        (fun e => ret (fail_with (failure_of e)))
  end.

(** The create-conversation call, without a title. *)
Definition create_init (userId : Z) : Api.RequestInit :=
  {| Api.method := Some "POST"; Api.headers := None;
     Api.body := Some (JSON_stringify (JObj [("user_id", JNum userId)])) |}.

Definition create_call (userId : Z) (hdrs : gmap string string) : Request :=
  Api.request "/api/conversations" (create_init userId) hdrs.

(** The chat call aimed at conversation [n]. *)
Definition chat_init (mode : ModeContext.AppMode) (userText : string) (n : Z)
  : Api.RequestInit :=
  {| Api.method := Some "POST"; Api.headers := None;
     Api.body := Some (JSON_stringify
               (JObj [("message", JStr userText);
                      ("mode", JStr (ModeContext.mode_name mode));
                      ("conversation_id", JStr (pretty n))])) |}.

Definition chat_call (mode : ModeContext.AppMode) (userText : string)
    (hdrs : gmap string string) (n : Z) : Request :=
  Api.request "/api/chat" (chat_init mode userText n) hdrs.

End WithHost.
End ConversationSynchronizer.

(** ** The credential resolver as the specification words it *)

Module Claimed.
Section WithHost.
Context `{Host}.

(** The credential readable in a store slot: the slot holds a text that
    parses and whose [token] is truthy. A text that fails to parse counts
    as an absent one. *)
Definition readable (item : option string) : option Json :=
  match item with
  | Some s =>
      match JSON_parse s with
      | Some parsed =>
          match get_prop parsed "token" with
          | Return (Some token) => if ToBoolean (Some token) then Some token else None
          | _ => None
          end
      | None => None
      end
  | None => None
  end.

(** The remember-store credential when one is readable there, otherwise
    the session-store credential when one is readable there, otherwise
    absent. *)
Definition resolve (w : World) : JsValue :=
  match readable (getItem (localStorage w) APP_CONFIG.storageKeys.user) with
  | Some token => Some token
  | None =>
      match readable (getItem (sessionStorage w) APP_CONFIG.storageKeys.user) with
      | Some token => Some token
      | None => null
      end
  end.

End WithHost.
End Claimed.

(** ** Scenarios used by the examples *)

Module Scenario.
Import ModeContext.

Definition unreachable : Network := fun _ _ => NetworkFailure.

Definition answering (r : Response) : Network := fun _ _ => Responded r.

Definition world (local session : gmap string string) (net : Network) : World :=
  {| localStorage := local; sessionStorage := session; network := net; sent := [] |}.

Definition world_with_mode (stored : option string) : World :=
  world (from_option (fun s => {[ MODE_STORAGE_KEY := s ]}) ∅ stored) ∅ unreachable.

(** The text [{"token":"abc"}]. *)
Definition abc_user : string :=
  RefHost.stringify (JObj [("token", JStr "abc")]).

(** A stored user of the form the documentation shows. *)
Definition alice_user : string :=
  RefHost.stringify
    (JObj [("id", JNum 1); ("email", JStr "alice@example.com");
           ("name", JStr "Alice"); ("token", JStr "tok-123")]).

Definition stores_with (local session : option string) (net : Network) : World :=
  world (from_option (fun s => {[ APP_CONFIG.storageKeys.user := s ]}) ∅ local)
        (from_option (fun s => {[ APP_CONFIG.storageKeys.user := s ]}) ∅ session)
        net.

(** Responses of the remote service. *)
Definition healthy : Response :=
  {| status := 200; text := RefHost.stringify (JObj [("status", JStr "ok")]) |}.

Definition no_content : Response := {| status := 204; text := EmptyString |}.

Definition not_found : Response :=
  {| status := 404;
     text := RefHost.stringify
               (JObj [("detail", JStr "Conversation not found");
                      ("error_code", JStr "NOT_FOUND")]) |}.

Definition bad_gateway : Response :=
  {| status := 502; text := "<html>Bad Gateway</html>" |}.

Definition truncated_body : Response :=
  {| status := 200; text := "{" |}.

(** The remote side of the example: the create call is answered with
    [{"id":42}] and the chat call with
    [{"conversation_id":42,"response":"hi"}]. *)
Definition example_service : Network :=
  fun _ req =>
    if String.eqb (req_url req) "http://localhost:8000/api/conversations" then
      Responded {| status := 200; text := RefHost.stringify (JObj [("id", JNum 42)]) |}
    else if String.eqb (req_url req) "http://localhost:8000/api/chat" then
      Responded {| status := 200;
                   text := RefHost.stringify
                             (JObj [("conversation_id", JNum 42);
                                    ("response", JStr "hi")]) |}
    else NetworkFailure.

End Scenario.

(** ** Further scenarios *)

Module Cases.
Import Scenario.

(** A caller that brings headers of its own. *)
Definition own_headers : gmap string string :=
  {[ "Content-Type" := "text/plain"; "Authorization" := "Basic xyz"; "X-Trace" := "1" ]}.

Definition plain_post : Api.RequestInit :=
  {| Api.method := Some "POST"; Api.headers := Some own_headers; Api.body := Some "hi" |}.

(** A validation failure in the style of FastAPI: [detail] is a list of
    objects. *)
Definition unprocessable : Response :=
  {| status := 422;
     text := RefHost.stringify
               (JObj [("detail", JArr [JObj [("msg", JStr "field required")]])]) |}.

(** Error bodies without a [detail]: an empty object, and [null]. *)
Definition bare_failure : Response :=
  {| status := 500; text := RefHost.stringify (JObj []) |}.

Definition null_failure : Response :=
  {| status := 500; text := RefHost.stringify JNull |}.

(** Successes without a body under a status other than 204. *)
Definition blank_success : Response := {| status := 200; text := EmptyString |}.

Definition reset_content : Response := {| status := 205; text := EmptyString |}.

(** Stored users whose [token] is a number, is empty, and a stored text
    that is a list. *)
Definition numbered_user : string := RefHost.stringify (JObj [("token", JNum 7)]).

Definition tokenless_user : string :=
  RefHost.stringify (JObj [("email", JStr "a@b.c"); ("token", JStr EmptyString)]).

Definition listed_user : string := RefHost.stringify (JArr [JStr "abc"]).

End Cases.

(** * Properties *)

#[global] Existing Instance RefHost.host.
Import ModeContext.
Import Scenario.

(** ** The reference host on the texts of the examples *)

Example parse_stored_user :
  RefHost.parse abc_user = Some (JObj [("token", JStr "abc")]) /\
  RefHost.parse "not json" = None /\
  RefHost.parse "{" = None /\
  RefHost.parse "<html>Bad Gateway</html>" = None.
Proof. by vm_compute. Qed.

Example parse_error_body :
  RefHost.parse (text not_found)
  = Some (JObj [("detail", JStr "Conversation not found");
                ("error_code", JStr "NOT_FOUND")]).
Proof. by vm_compute. Qed.

Example print_then_parse :
  RefHost.parse
    (RefHost.stringify
       (JObj [("conversations", JArr [JObj [("id", JNum 7); ("title", JStr "a b")]]);
              ("total", JNum 1); ("next", JNull); ("more", JBool false)]))
  = Some (JObj [("conversations", JArr [JObj [("id", JNum 7); ("title", JStr "a b")]]);
                ("total", JNum 1); ("next", JNull); ("more", JBool false)]).
Proof. by vm_compute. Qed.

(** ** ModeContext *)

(** C8. Whatever the mode slot of [localStorage] holds, [getStoredMode]
    yields [workspace] or [personal] when exactly that string is stored,
    and [personal] in every other case: nothing stored, or any other
    string. It is a total function, so nothing is thrown. *)
Theorem getStoredMode_defensive_decode (w : World) :
  let stored := getItem (localStorage w) MODE_STORAGE_KEY in
  (stored = Some "workspace" -> mode_name (getStoredMode w) = "workspace") /\
  (stored = Some "personal" -> mode_name (getStoredMode w) = "personal") /\
  (stored <> Some "workspace" -> stored <> Some "personal" ->
   mode_name (getStoredMode w) = "personal").
Proof.
  unfold getStoredMode. cbv zeta.
  destruct (getItem (localStorage w) MODE_STORAGE_KEY) as [s|]; [|done].
  split_and!.
  - by intros [= ->].
  - by intros [= ->].
  - intros Hw Hp.
    destruct (String.eqb_spec s "workspace") as [->|_]; [congruence|].
    by destruct (String.eqb_spec s "personal") as [->|_].
Qed.

Lemma getStoredMode_defensive_decode_witness :
  mode_name (getStoredMode (world_with_mode (Some "workspace"))) = "workspace" /\
  mode_name (getStoredMode (world_with_mode (Some "personal"))) = "personal" /\
  mode_name (getStoredMode (world_with_mode (Some "student"))) = "personal" /\
  mode_name (getStoredMode (world_with_mode None)) = "personal".
Proof.
  split_and!.
  - destruct (getStoredMode_defensive_decode (world_with_mode (Some "workspace")))
      as (Hw & _ & _).
    apply Hw. reflexivity.
  - destruct (getStoredMode_defensive_decode (world_with_mode (Some "personal")))
      as (_ & Hp & _).
    apply Hp. reflexivity.
  - destruct (getStoredMode_defensive_decode (world_with_mode (Some "student")))
      as (_ & _ & Ho).
    apply Ho; vm_compute; discriminate.
  - destruct (getStoredMode_defensive_decode (world_with_mode None))
      as (_ & _ & Ho).
    apply Ho; vm_compute; discriminate.
Defined.

(** C9. [setMode m] leaves the provider holding [m] and the mode slot
    holding the name of [m], so that a later [getStoredMode] (and a
    provider created afterwards) yields [m]; it issues no request and
    touches nothing else in either store. *)
Theorem setMode_persist_roundtrip (m : AppMode) (p : Provider) (w : World) :
  let p' := (setMode m (p, w)).1 in
  let w' := (setMode m (p, w)).2 in
  mode p' = m /\
  getItem (localStorage w') MODE_STORAGE_KEY = Some (mode_name m) /\
  getStoredMode w' = m /\
  ModeProvider w' = p' /\
  sent w' = sent w /\
  network w' = network w /\
  sessionStorage w' = sessionStorage w /\
  delete MODE_STORAGE_KEY (localStorage w') = delete MODE_STORAGE_KEY (localStorage w).
Proof.
  cbv zeta. unfold setMode, ModeProvider, getStoredMode, getItem, setItem. simpl.
  rewrite lookup_insert_eq.
  split_and!; try done.
  - by destruct m.
  - by destruct m.
  - by rewrite delete_insert_eq.
Qed.

(** ** AuthContext *)

Import AuthContext.

(** C10. Inside or outside of a provider, [login], [signup] and
    [updateProfile] resolve to [DEFAULT_USER] (id 1, user@velocity.ai,
    token local-dev) whatever their arguments and whatever the stores
    hold, [logout] changes nothing at all, and [isAuthenticated] is
    [true]. *)
Theorem auth_surface_is_constant `{Host} (inside : bool)
    (mail password : string) (rememberMe : option bool) (display : option string)
    (data : UserUpdate) (w : World) :
  let auth := useAuth (if inside then Some AuthProvider else None) in
  login auth mail password rememberMe w = (Return DEFAULT_USER, w) /\
  signup auth mail password display w = (Return DEFAULT_USER, w) /\
  updateProfile auth data w = (Return DEFAULT_USER, w) /\
  logout auth w = (Return tt, w) /\
  isAuthenticated auth = true /\
  isLoading auth = false /\
  user auth = Some DEFAULT_USER /\
  id DEFAULT_USER = 1 /\
  email DEFAULT_USER = "user@velocity.ai" /\
  token DEFAULT_USER = Some "local-dev".
Proof. by destruct inside. Qed.

(** ** The credential resolver *)

Import Api.

Lemma token_of_stored_readable `{Host} (s : string) :
  token_of_stored s = from_option Some null (Claimed.readable (Some s)).
Proof.
  unfold token_of_stored, Claimed.readable.
  destruct (JSON_parse s) as [parsed|]; [|done].
  destruct (get_prop parsed "token") as [[token|]|e]; try done.
  unfold or_else. by destruct (ToBoolean (Some token)).
Qed.

Lemma readable_falsy_item `{Host} (item : option string) :
  item_truthy item = false -> Claimed.readable item = None.
Proof.
  destruct item as [s|]; [|done]. simpl.
  destruct (String.eqb_spec s EmptyString) as [->|]; [|done].
  intros _. by rewrite JSON_parse_empty.
Qed.

Lemma getAuthToken_null_or_truthy `{Host} (w : World) :
  getAuthToken w = null \/ ToBoolean (getAuthToken w) = true.
Proof.
  assert (Hstored : forall s, token_of_stored s = null \/ ToBoolean (token_of_stored s) = true).
  { intros s. unfold token_of_stored.
    destruct (JSON_parse s) as [parsed|]; [|by left].
    destruct (get_prop parsed "token") as [token|e]; [|by left].
    unfold or_else. destruct (ToBoolean token) eqn:Htruthy; [by right|by left]. }
  unfold getAuthToken.
  destruct (item_truthy (getItem (localStorage w) _)); [apply Hstored|].
  destruct (item_truthy (getItem (sessionStorage w) _)); [apply Hstored|by left].
Qed.

(** C2, as the code has it. A non-empty remember-store entry decides
    alone: its token when it is readable, and absent when it fails to
    parse or holds no truthy token, without the session-store being
    consulted. The session-store entry decides when the remember-store
    holds no entry or the empty text. The result is [null] or a truthy
    token, never an exception; and it is the result of the resolver of
    the specification whenever the remember-store entry is missing, empty
    or readable. *)
Theorem getAuthToken_precedence `{Host} (w : World) :
  let localUser := getItem (localStorage w) APP_CONFIG.storageKeys.user in
  let sessionUser := getItem (sessionStorage w) APP_CONFIG.storageKeys.user in
  (item_truthy localUser = true ->
   getAuthToken w = from_option Some null (Claimed.readable localUser)) /\
  (item_truthy localUser = false ->
   getAuthToken w = from_option Some null (Claimed.readable sessionUser)) /\
  (item_truthy localUser = false \/ is_Some (Claimed.readable localUser) ->
   getAuthToken w = Claimed.resolve w) /\
  (getAuthToken w = null \/ ToBoolean (getAuthToken w) = true).
Proof.
  cbv zeta.
  assert (Hlocal : item_truthy (getItem (localStorage w) APP_CONFIG.storageKeys.user) = true ->
    getAuthToken w =
    from_option Some null (Claimed.readable (getItem (localStorage w) APP_CONFIG.storageKeys.user))).
  { intros Htruthy. unfold getAuthToken. rewrite Htruthy.
    destruct (getItem (localStorage w) _) as [s|]; [|done].
    apply token_of_stored_readable. }
  assert (Hsession : item_truthy (getItem (localStorage w) APP_CONFIG.storageKeys.user) = false ->
    getAuthToken w =
    from_option Some null (Claimed.readable (getItem (sessionStorage w) APP_CONFIG.storageKeys.user))).
  { intros Hfalsy. unfold getAuthToken. rewrite Hfalsy.
    destruct (item_truthy (getItem (sessionStorage w) _)) eqn:Hs.
    - destruct (getItem (sessionStorage w) _) as [s|]; [|done].
      apply token_of_stored_readable.
    - by rewrite (readable_falsy_item _ Hs). }
  split_and!; [done|done| |apply getAuthToken_null_or_truthy].
  intros Hcase. unfold Claimed.resolve.
  destruct (item_truthy (getItem (localStorage w) APP_CONFIG.storageKeys.user)) eqn:Htruthy.
  - destruct Hcase as [|[token Htoken]]; [done|].
    rewrite Hlocal by done. by rewrite Htoken.
  - rewrite Hsession by done. rewrite (readable_falsy_item _ Htruthy).
    by destruct (Claimed.readable (getItem (sessionStorage w) _)).
Qed.

Lemma getAuthToken_precedence_witness :
  getAuthToken (stores_with (Some alice_user) (Some abc_user) unreachable)
    = Some (JStr "tok-123") /\
  getAuthToken (stores_with None (Some abc_user) unreachable) = Some (JStr "abc") /\
  getAuthToken (stores_with (Some "") (Some abc_user) unreachable)
    = Claimed.resolve (stores_with (Some "") (Some abc_user) unreachable).
Proof.
  split_and!.
  - destruct (getAuthToken_precedence
                (stores_with (Some alice_user) (Some abc_user) unreachable))
      as (Hlocal & _ & _ & _).
    rewrite Hlocal; reflexivity.
  - destruct (getAuthToken_precedence (stores_with None (Some abc_user) unreachable))
      as (_ & Hsession & _ & _).
    rewrite Hsession; reflexivity.
  - destruct (getAuthToken_precedence (stores_with (Some "") (Some abc_user) unreachable))
      as (_ & _ & Hagree & _).
    apply Hagree. left. reflexivity.
Defined.

(** C2, as claimed, fails: with a remember-store entry that does not
    parse and a valid session-store entry, the claimed resolver yields the
    session token but [getAuthToken] yields [null]. *)
Lemma getAuthToken_malformed_remember_entry_hides_session :
  let w := stores_with (Some "not json") (Some abc_user) unreachable in
  Claimed.readable (getItem (localStorage w) APP_CONFIG.storageKeys.user) = None /\
  Claimed.resolve w = Some (JStr "abc") /\
  getAuthToken w = null /\
  getAuthToken w <> Claimed.resolve w.
Proof. cbv zeta. split_and!; [reflexivity..|]. vm_compute. discriminate. Qed.

(** ** The credential stores under the authentication context *)

(** C3, as the code has it. No operation of the authentication context
    writes to or clears a store: after [login] (with or without
    remember-me), [signup], [updateProfile] and [logout] both stores are
    what they were, and [getAuthToken] yields what it yielded before. *)
Theorem auth_operations_keep_resolution `{Host} (inside : bool)
    (mail password : string) (rememberMe : option bool) (display : option string)
    (data : UserUpdate) (w : World) :
  let auth := useAuth (if inside then Some AuthProvider else None) in
  let after_login := (login auth mail password rememberMe w).2 in
  let after_signup := (signup auth mail password display w).2 in
  let after_update := (updateProfile auth data w).2 in
  let after_logout := (logout auth w).2 in
  (localStorage after_login = localStorage w /\
   sessionStorage after_login = sessionStorage w /\
   getAuthToken after_login = getAuthToken w) /\
  (localStorage after_signup = localStorage w /\
   sessionStorage after_signup = sessionStorage w /\
   getAuthToken after_signup = getAuthToken w) /\
  (localStorage after_update = localStorage w /\
   sessionStorage after_update = sessionStorage w /\
   getAuthToken after_update = getAuthToken w) /\
  (localStorage after_logout = localStorage w /\
   sessionStorage after_logout = sessionStorage w /\
   getAuthToken after_logout = getAuthToken w).
Proof. by destruct inside. Qed.

(** C3, as claimed, fails in both halves: logging in with remember-me on
    empty stores resolves to the default user and yet [getAuthToken]
    stays [null] afterwards; and a credential held in the remember-store
    (or in the session-store) still resolves after [logout]. *)
Lemma logout_keeps_stored_credential :
  let empty := stores_with None None unreachable in
  let remembered := stores_with (Some abc_user) None unreachable in
  let in_session := stores_with None (Some abc_user) unreachable in
  (login AuthProvider "user@velocity.ai" "secret" (Some true) empty).1 = Return DEFAULT_USER /\
  getAuthToken (login AuthProvider "user@velocity.ai" "secret" (Some true) empty).2 = null /\
  getAuthToken (login AuthProvider "user@velocity.ai" "secret" (Some false) empty).2 = null /\
  getAuthToken (logout AuthProvider remembered).2 = Some (JStr "abc") /\
  getAuthToken (logout AuthProvider in_session).2 = Some (JStr "abc") /\
  getAuthToken (logout AuthProvider remembered).2 <> null.
Proof. cbv zeta. split_and!; [reflexivity..|]. vm_compute. discriminate. Qed.

(** ** The request gateway *)

Section Gateway.
Context `{Host}.
Variables (w : World) (endpoint : string) (options : RequestInit).

(** Running [apiRequest] up to the call of [fetch]. *)
Lemma apiRequest_conversion_throws :
  with_authorization (getAuthToken w) (base_headers options) = Throw TypeError ->
  apiRequest endpoint options w = (Throw TypeError, w).
Proof.
  intros Hauth. unfold apiRequest, bind, reads, lift. by rewrite Hauth.
Qed.

Variable hdrs : gmap string string.
Hypothesis Hauth : with_authorization (getAuthToken w) (base_headers options) = Return hdrs.

Lemma apiRequest_unreachable :
  network w (sent w) (request endpoint options hdrs) = NetworkFailure ->
  apiRequest endpoint options w = (Throw TypeError, sending (request endpoint options hdrs) w).
Proof.
  intros Hnet. unfold apiRequest, bind, reads, lift, fetch. rewrite Hauth. simpl.
  by rewrite Hnet.
Qed.

Lemma apiRequest_responded (r : Response) :
  network w (sent w) (request endpoint options hdrs) = Responded r ->
  apiRequest endpoint options w =
  (if negb (ok r) then
     match get_prop (error_body r) "detail" with
     | Return detail =>
         match new_Error detail with
         | Return e => Throw e
         | Throw e => Throw e
         end
     | Throw e => Throw e
     end
   else if status r =? 204 then Return undefined
   else match JSON_parse (text r) with
        | Some j => Return (Some j)
        | None => Throw SyntaxError
        end,
   sending (request endpoint options hdrs) w).
Proof.
  intros Hnet. unfold apiRequest, bind, reads, lift, fetch. rewrite Hauth. simpl.
  rewrite Hnet. destruct (ok r); simpl.
  - destruct (status r =? 204); [done|].
    unfold json. by destruct (JSON_parse (text r)).
  - destruct (get_prop (error_body r) "detail") as [detail|e]; [|done].
    by destruct (new_Error detail).
Qed.

Lemma apiRequest_issues_one_request :
  sent (apiRequest endpoint options w).2 = (sent w ++ [request endpoint options hdrs])%list.
Proof.
  destruct (network w (sent w) (request endpoint options hdrs)) as [|r] eqn:Hnet.
  - by rewrite apiRequest_unreachable.
  - by rewrite (apiRequest_responded r).
Qed.

End Gateway.

Lemma base_headers_no_authorization (options : RequestInit) :
  default ∅ (headers options) !! "Authorization" = None ->
  base_headers options !! "Authorization" = None.
Proof.
  intros Hnone. unfold base_headers.
  apply lookup_union_None. split; [done|].
  by apply lookup_singleton_None.
Qed.

Lemma drop_sent_app (l issued : list Request) : drop (length l) (l ++ issued) = issued.
Proof. by rewrite drop_app_length. Qed.

(** C5. The requests [apiRequest] issues, beyond those already sent:
    with no token resolved it is the one request carrying the base
    headers as they are; with a token it is the one request whose headers
    are the base headers with [Authorization] set to [Bearer] and the
    token. So, when the caller passed no [Authorization] header of its
    own, a request of [apiRequest] has that header exactly when a token
    resolved. *)
Theorem apiRequest_bearer_iff_token `{Host}
    (w : World) (endpoint : string) (options : RequestInit) :
  let token := getAuthToken w in
  let issued := drop (length (sent w)) (sent (apiRequest endpoint options w).2) in
  (token = null -> issued = [request endpoint options (base_headers options)]) /\
  (forall shown, token <> null -> token ≫= ToString = Some shown ->
     issued = [request endpoint options
                 (<["Authorization" := "Bearer " ++ shown]> (base_headers options))]) /\
  (default ∅ (headers options) !! "Authorization" = None ->
   forall req, req ∈ issued ->
     (is_Some (req_headers req !! "Authorization") <-> token <> null) /\
     delete "Authorization" (req_headers req) = base_headers options).
Proof.
  cbv zeta.
  assert (Hnull : getAuthToken w = null ->
    drop (length (sent w)) (sent (apiRequest endpoint options w).2)
    = [request endpoint options (base_headers options)]).
  { intros Htoken.
    rewrite (apiRequest_issues_one_request w endpoint options (base_headers options)).
    - apply drop_sent_app.
    - unfold with_authorization. by rewrite Htoken. }
  assert (Htruthy : forall shown, getAuthToken w <> null ->
    getAuthToken w ≫= ToString = Some shown ->
    drop (length (sent w)) (sent (apiRequest endpoint options w).2)
    = [request endpoint options
         (<["Authorization" := "Bearer " ++ shown]> (base_headers options))]).
  { intros shown Hsome Hshown.
    rewrite (apiRequest_issues_one_request w endpoint options
               (<["Authorization" := "Bearer " ++ shown]> (base_headers options))).
    - apply drop_sent_app.
    - unfold with_authorization. rewrite Hshown.
      by destruct (getAuthToken_null_or_truthy w) as [ | -> ]. }
  split_and!; [done|done|].
  intros Hcaller req Hreq.
  pose proof (base_headers_no_authorization options Hcaller) as Hbase.
  destruct (getAuthToken_null_or_truthy w) as [Htoken|Htoken].
  2: assert (getAuthToken w <> null) by (intros Heq; by rewrite Heq in Htoken).
  - rewrite (Hnull Htoken) in Hreq. apply list_elem_of_singleton in Hreq as ->. simpl.
    rewrite Hbase. split.
    + split; [by intros [? ?]|done].
    + by apply delete_id.
  - destruct (getAuthToken w ≫= ToString) as [shown|] eqn:Hshown.
    + rewrite (Htruthy shown) in Hreq by done.
      apply list_elem_of_singleton in Hreq as ->. simpl. split.
      * rewrite lookup_insert_eq. split; [done|by eexists].
      * rewrite delete_insert_eq. by apply delete_id.
    + rewrite apiRequest_conversion_throws in Hreq.
      * simpl in Hreq. rewrite drop_all in Hreq. by apply elem_of_nil in Hreq.
      * unfold with_authorization. rewrite Hshown.
        by destruct (getAuthToken_null_or_truthy w) as [ | -> ].
Qed.

Lemma apiRequest_bearer_iff_token_witness :
  drop 0 (sent (apiRequest "/health" no_options
                  (stores_with (Some alice_user) None (answering healthy))).2)
  = [ {| req_url := "http://localhost:8000/health";
         req_method := None;
         req_headers := {[ "Authorization" := "Bearer tok-123";
                           "Content-Type" := "application/json" ]};
         req_body := None |} ] /\
  drop 0 (sent (apiRequest "/health" no_options
                  (stores_with None None (answering healthy))).2)
  = [ {| req_url := "http://localhost:8000/health";
         req_method := None;
         req_headers := {[ "Content-Type" := "application/json" ]};
         req_body := None |} ].
Proof.
  split.
  - destruct (apiRequest_bearer_iff_token
                (stores_with (Some alice_user) None (answering healthy))
                "/health" no_options) as (_ & Hbearer & _).
    etrans; [apply (Hbearer "tok-123"); [vm_compute; discriminate|reflexivity]|].
    reflexivity.
  - destruct (apiRequest_bearer_iff_token
                (stores_with None None (answering healthy))
                "/health" no_options) as (Hnone & _ & _).
    etrans; [apply Hnone; reflexivity|].
    reflexivity.
Defined.

(** C6, as the code has it. On a response whose status is in the
    success range, [apiRequest] resolves to [undefined] exactly when the
    status is 204, whatever the body holds. On every other success status
    it decodes the body: when the body decodes, the decoded value, which
    is never [undefined], is what it resolves to; when the body does not
    decode, as the empty body never does, it rejects with the
    [SyntaxError] of the decoder. *)
Theorem apiRequest_success_by_status `{Host}
    (w : World) (endpoint : string) (options : RequestInit)
    (hdrs : gmap string string) (r : Response)
    (Hauth : with_authorization (getAuthToken w) (base_headers options) = Return hdrs)
    (Hnet : network w (sent w) (request endpoint options hdrs) = Responded r)
    (Hok : ok r = true) :
  let result := (apiRequest endpoint options w).1 in
  (result = Return undefined <-> status r = 204) /\
  (forall j, status r <> 204 -> JSON_parse (text r) = Some j -> result = Return (Some j)) /\
  (status r <> 204 -> JSON_parse (text r) = None -> result = Throw SyntaxError) /\
  (status r <> 204 -> text r = EmptyString -> result = Throw SyntaxError).
Proof.
  cbv zeta. rewrite (apiRequest_responded w endpoint options hdrs Hauth r Hnet).
  rewrite Hok. simpl.
  destruct (Z.eqb_spec (status r) 204) as [Heq|Hne].
  - split_and!; done.
  - split_and!.
    + split; [|done]. by destruct (JSON_parse (text r)).
    + by intros j _ ->.
    + by intros _ ->.
    + intros _ ->. by rewrite JSON_parse_empty.
Qed.

Lemma apiRequest_success_by_status_witness :
  (deleteConversation 7 (stores_with (Some alice_user) None (answering no_content))).1
    = Return undefined /\
  (healthCheck (stores_with None None (answering healthy))).1
    = Return (Some (JObj [("status", JStr "ok")])) /\
  (healthCheck (stores_with None None (answering Cases.blank_success))).1
    = Throw SyntaxError.
Proof.
  split_and!.
  - destruct (apiRequest_success_by_status
                (stores_with (Some alice_user) None (answering no_content))
                ("/api/conversations/" ++ pretty 7)
                {| method := Some "DELETE"; headers := None; body := None |}
                (<["Authorization" := "Bearer tok-123"]>
                   {[ "Content-Type" := "application/json" ]})
                no_content) as (Hsentinel & _); [reflexivity..|].
    apply Hsentinel. reflexivity.
  - destruct (apiRequest_success_by_status (stores_with None None (answering healthy))
                "/health" no_options {[ "Content-Type" := "application/json" ]}
                healthy) as (_ & Hvalue & _); [reflexivity..|].
    apply Hvalue; [vm_compute; discriminate|reflexivity].
  - destruct (apiRequest_success_by_status
                (stores_with None None (answering Cases.blank_success))
                "/health" no_options {[ "Content-Type" := "application/json" ]}
                Cases.blank_success) as (_ & _ & _ & Hblank); [reflexivity..|].
    apply Hblank; [vm_compute; discriminate|reflexivity].
Defined.

(** C6, as claimed, fails: the sentinel goes with the status 204, not
    with the empty body. A success with the status 200 or 205 and an empty
    body does not resolve to [undefined] but rejects with a [SyntaxError],
    and a success whose body is cut short is not returned as a value
    either. *)
Lemma apiRequest_empty_success_body_rejects :
  let blank := stores_with None None (answering Cases.blank_success) in
  let reset := stores_with None None (answering Cases.reset_content) in
  let garbled := stores_with None None (answering truncated_body) in
  ok Cases.blank_success = true /\
  text Cases.blank_success = EmptyString /\
  (healthCheck blank).1 = Throw SyntaxError /\
  (healthCheck reset).1 = Throw SyntaxError /\
  (healthCheck garbled).1 = Throw SyntaxError /\
  ~ (forall (w : World) (endpoint : string) (options : RequestInit)
            (hdrs : gmap string string) (r : Response),
       with_authorization (getAuthToken w) (base_headers options) = Return hdrs ->
       network w (sent w) (request endpoint options hdrs) = Responded r ->
       ok r = true ->
       ((apiRequest endpoint options w).1 = Return undefined <-> text r = EmptyString)) /\
  ~ (forall (w : World) (endpoint : string) (options : RequestInit)
            (hdrs : gmap string string) (r : Response),
       with_authorization (getAuthToken w) (base_headers options) = Return hdrs ->
       network w (sent w) (request endpoint options hdrs) = Responded r ->
       ok r = true -> status r <> 204 ->
       exists j, (apiRequest endpoint options w).1 = Return (Some j)).
Proof.
  cbv zeta. split_and!; [reflexivity..| |].
  - intros Hclaim.
    destruct (Hclaim (stores_with None None (answering Cases.blank_success))
                "/health" no_options {[ "Content-Type" := "application/json" ]}
                Cases.blank_success eq_refl eq_refl eq_refl) as [_ Hsentinel].
    specialize (Hsentinel eq_refl). discriminate Hsentinel.
  - intros Hclaim.
    destruct (Hclaim (stores_with None None (answering truncated_body))
                "/health" no_options {[ "Content-Type" := "application/json" ]}
                truncated_body eq_refl eq_refl eq_refl) as [j Hvalue].
    + vm_compute. discriminate.
    + discriminate Hvalue.
Qed.

(** C7. On a response whose status is outside the success range,
    [apiRequest] rejects with an [Error] whose message is read from the
    decoded body: the [detail] of the error description (which may carry
    an [error_code] beside it). When the body does not decode the message
    is synthesized from the status, [Request failed with status N]: it
    is not empty, it ends in the decimal status, and the decoder's
    [SyntaxError] does not escape. *)
Theorem apiRequest_failure_description `{Host}
    (w : World) (endpoint : string) (options : RequestInit)
    (hdrs : gmap string string) (r : Response)
    (Hauth : with_authorization (getAuthToken w) (base_headers options) = Return hdrs)
    (Hnet : network w (sent w) (request endpoint options hdrs) = Responded r)
    (Hfail : ok r = false) :
  let result := (apiRequest endpoint options w).1 in
  (forall props detail,
     JSON_parse (text r) = Some (JObj props) ->
     own_prop "detail" props = Some (JStr detail) ->
     result = Throw (Error detail)) /\
  (JSON_parse (text r) = None ->
   exists message,
     result = Throw (Error message) /\
     message = "Request failed with status " ++ pretty (status r) /\
     message <> EmptyString /\
     result <> Throw SyntaxError) /\
  (forall v, result <> Return v).
Proof.
  cbv zeta. rewrite (apiRequest_responded w endpoint options hdrs Hauth r Hnet).
  rewrite Hfail. simpl. split_and!.
  - intros props detail Hparse Hdetail.
    unfold error_body, json. rewrite Hparse. simpl. by rewrite Hdetail.
  - intros Hparse. eexists. unfold error_body, json. rewrite Hparse. simpl.
    split_and!; done.
  - intros v.
    destruct (get_prop (error_body r) "detail") as [detail|e]; [|done].
    by destruct (new_Error detail).
Qed.

Lemma apiRequest_failure_description_witness :
  (getConversationMessages 9 (stores_with None None (answering not_found))).1
    = Throw (Error "Conversation not found") /\
  (getConversationMessages 9 (stores_with None None (answering bad_gateway))).1
    = Throw (Error "Request failed with status 502").
Proof.
  split.
  - destruct (apiRequest_failure_description
                (stores_with None None (answering not_found))
                ("/api/conversations/" ++ pretty 9 ++ "/messages") no_options
                {[ "Content-Type" := "application/json" ]}
                not_found) as (Hdetail & _); [reflexivity..|].
    eapply Hdetail; reflexivity.
  - destruct (apiRequest_failure_description
                (stores_with None None (answering bad_gateway))
                ("/api/conversations/" ++ pretty 9 ++ "/messages") no_options
                {[ "Content-Type" := "application/json" ]}
                bad_gateway) as (_ & Hfallback & _); [reflexivity..|].
    destruct (Hfallback eq_refl) as (message & Hresult & Hmessage & _).
    rewrite Hmessage in Hresult. exact Hresult.
Defined.

(** C1, as the code has it. Only a status outside the success range is
    turned into an [Error] built by [apiRequest], with the [detail] of the
    decoded body, or the status text when the body does not decode, as its
    message and nothing else in it. An unreachable network rejects with
    the [TypeError] of [fetch], and a success body that does not decode
    rejects with the [SyntaxError] of [response.json()]: both pass through
    [apiRequest] as they were raised. *)
Theorem apiRequest_failure_paths `{Host}
    (w : World) (endpoint : string) (options : RequestInit)
    (hdrs : gmap string string)
    (Hauth : with_authorization (getAuthToken w) (base_headers options) = Return hdrs) :
  let result := (apiRequest endpoint options w).1 in
  let answer := network w (sent w) (request endpoint options hdrs) in
  (answer = NetworkFailure -> result = Throw TypeError) /\
  (forall r props detail,
     answer = Responded r -> ok r = false ->
     JSON_parse (text r) = Some (JObj props) ->
     own_prop "detail" props = Some (JStr detail) ->
     result = Throw (Error detail)) /\
  (forall r,
     answer = Responded r -> ok r = false -> JSON_parse (text r) = None ->
     result = Throw (Error ("Request failed with status " ++ pretty (status r)))) /\
  (forall r,
     answer = Responded r -> ok r = true -> status r <> 204 ->
     JSON_parse (text r) = None ->
     result = Throw SyntaxError).
Proof.
  cbv zeta. split_and!.
  - intros Hnet. by rewrite (apiRequest_unreachable w endpoint options hdrs Hauth Hnet).
  - intros r props detail Hnet Hfail Hparse Hdetail.
    rewrite (apiRequest_responded w endpoint options hdrs Hauth r Hnet), Hfail. simpl.
    unfold error_body, json. rewrite Hparse. simpl. by rewrite Hdetail.
  - intros r Hnet Hfail Hparse.
    rewrite (apiRequest_responded w endpoint options hdrs Hauth r Hnet), Hfail. simpl.
    unfold error_body, json. by rewrite Hparse.
  - intros r Hnet Hok Hstatus Hparse.
    rewrite (apiRequest_responded w endpoint options hdrs Hauth r Hnet), Hok. simpl.
    destruct (Z.eqb_spec (status r) 204); [done|]. by rewrite Hparse.
Qed.

Lemma apiRequest_failure_paths_witness :
  (healthCheck (stores_with None None unreachable)).1 = Throw TypeError /\
  (healthCheck (stores_with None None (answering truncated_body))).1 = Throw SyntaxError.
Proof.
  split.
  - destruct (apiRequest_failure_paths (stores_with None None unreachable)
                "/health" no_options {[ "Content-Type" := "application/json" ]})
      as (Hunreachable & _); [reflexivity|].
    apply Hunreachable. reflexivity.
  - destruct (apiRequest_failure_paths (stores_with None None (answering truncated_body))
                "/health" no_options {[ "Content-Type" := "application/json" ]})
      as (_ & _ & _ & Hdecode); [reflexivity|].
    apply (Hdecode truncated_body); [reflexivity..| |reflexivity].
    vm_compute. discriminate.
Defined.

(** C1, as claimed, fails: the failures of [apiRequest] do not all have
    the one shape of the [Error] it builds. With the network unreachable
    the caller receives the [TypeError] raised by [fetch], and with a
    success status and a body that does not decode it receives the
    [SyntaxError] raised by the decoder; and when the error body names an
    [error_code], the [Error] received has the message alone. *)
Lemma apiRequest_lets_engine_exceptions_through :
  let offline := stores_with None None unreachable in
  let garbled := stores_with None None (answering truncated_body) in
  (healthCheck offline).1 = Throw TypeError /\
  (healthCheck garbled).1 = Throw SyntaxError /\
  (getConversationMessages 9 (stores_with None None (answering not_found))).1
    = Throw (Error "Conversation not found") /\
  ~ (forall (w : World) (endpoint : string) (options : RequestInit) (e : JsExn),
       (apiRequest endpoint options w).1 = Throw e -> exists message, e = Error message).
Proof.
  cbv zeta. split_and!; [reflexivity..|].
  intros Hclaim.
  destruct (Hclaim (stores_with None None unreachable) "/health" no_options TypeError eq_refl)
    as [message Hshape].
  discriminate Hshape.
Qed.

(** ** The conversation synchronizer *)

Import ConversationSynchronizer.

Lemma apiRequest_run `{Host} (w : World) (endpoint : string) (options : RequestInit)
    (hdrs : gmap string string) :
  with_authorization (getAuthToken w) (base_headers options) = Return hdrs ->
  exists c, apiRequest endpoint options w = (c, sending (request endpoint options hdrs) w).
Proof.
  intros Hauth.
  destruct (network w (sent w) (request endpoint options hdrs)) as [|r] eqn:Hnet.
  - eexists. by apply apiRequest_unreachable.
  - eexists. by apply apiRequest_responded.
Qed.

Lemma reidentify_same (n : Z) (cs : list Conversation) : reidentify n n cs = cs.
Proof.
  unfold reidentify. induction cs as [|[i j] cs IH]; [done|].
  rewrite fmap_cons, IH. simpl.
  by destruct (Z.eqb_spec i n) as [->|].
Qed.

Section Send.
Context `{Host}.
Variables (w : World) (userId : Z) (mode : AppMode) (userText : string) (s : Sync).
Variable hdrs : gmap string string.

Lemma createConversation_untitled :
  createConversation userId None = apiRequest "/api/conversations" (create_init userId).
Proof. reflexivity. Qed.

Lemma sendChatMessage_targeted (n : Z) :
  sendChatMessage userText (Some (mode_name mode)) (Some (pretty n))
  = apiRequest "/api/chat" (chat_init mode userText n).
Proof. reflexivity. Qed.

Hypothesis Hnone : activeConversationId s = None.
Hypothesis Hauth : with_authorization (getAuthToken w) (base_headers no_options) = Return hdrs.

Lemma send_first_creates :
  exists rest, sent (send userId mode userText s w).2 = (sent w ++ (create_call userId hdrs) :: rest)%list.
Proof.
  unfold send, target_of, bind, try_catch, ret. rewrite Hnone.
  rewrite createConversation_untitled.
  edestruct (apiRequest_run w "/api/conversations" (create_init userId)) as [c ->]; [exact Hauth|].
  fold (create_call userId hdrs).
  destruct c as [created|e]; [|by exists []].
  destruct (created ≫= conversation_of) as [c|]; [|by exists []].
  rewrite sendChatMessage_targeted.
  edestruct (apiRequest_run (sending (create_call userId hdrs) w) "/api/chat" (chat_init mode userText (id c)))
    as [c' ->]; [exact Hauth|].
  exists [chat_call mode userText hdrs (id c)].
  destruct c' as [reply|e]; [destruct (reply ≫= reply_of) as [[? ?]|]|];
    simpl; by rewrite <- (assoc_L (++)).
Qed.

Lemma send_chat_follows_create
    (created : Response) (made : list (string * Json)) (n : Z) :
  network w (sent w) (create_call userId hdrs) = Responded created ->
  ok created = true -> status created <> 204 ->
  JSON_parse (text created) = Some (JObj made) ->
  own_prop "id" made = Some (JNum n) ->
  sent (send userId mode userText s w).2
  = (sent w ++ [create_call userId hdrs; chat_call mode userText hdrs n])%list.
Proof.
  intros Hcreate Hok1 Hstatus1 Hparse1 Hid.
  unfold send, target_of, bind, try_catch, ret. rewrite Hnone.
  rewrite createConversation_untitled.
  rewrite (apiRequest_responded w "/api/conversations" (create_init userId) hdrs
             Hauth created Hcreate).
  rewrite Hok1. simpl.
  destruct (Z.eqb_spec (status created) 204) as [|_]; [done|].
  rewrite Hparse1. simpl. unfold conversation_of. simpl. rewrite Hid. simpl.
  rewrite sendChatMessage_targeted. fold (create_call userId hdrs).
  edestruct (apiRequest_run (sending (create_call userId hdrs) w) "/api/chat"
               (chat_init mode userText n)) as [c' ->]; [exact Hauth|].
  destruct c' as [reply|e]; [destruct (reply ≫= reply_of) as [[? ?]|]|];
    simpl; by rewrite <- (assoc_L (++)).
Qed.

Lemma send_creates_then_chats_run
    (created reply : Response) (made said : list (string * Json))
    (n : Z) (answer : string) :
  network w (sent w) (create_call userId hdrs) = Responded created ->
  ok created = true -> status created <> 204 ->
  JSON_parse (text created) = Some (JObj made) ->
  own_prop "id" made = Some (JNum n) ->
  network w (sent w ++ [(create_call userId hdrs)])%list (chat_call mode userText hdrs n) = Responded reply ->
  ok reply = true -> status reply <> 204 ->
  JSON_parse (text reply) = Some (JObj said) ->
  own_prop "conversation_id" said = Some (JNum n) ->
  own_prop "response" said = Some (JStr answer) ->
  send userId mode userText s w =
  (Return
     ({| conversations := {| id := n; remote := JObj made |} :: conversations s;
         messages := messages s ++
           [ {| conversationId := n; role := user; content := userText;
                delivery := delivered |};
             {| conversationId := n; role := assistant; content := answer;
                delivery := delivered |} ];
         activeConversationId := Some n |}, None),
   sending (chat_call mode userText hdrs n) (sending (create_call userId hdrs) w)).
Proof.
  intros Hcreate Hok1 Hstatus1 Hparse1 Hid Hchat Hok2 Hstatus2 Hparse2 Hcid Hanswer.
  unfold send, target_of, bind, try_catch, ret. rewrite Hnone.
  rewrite createConversation_untitled.
  rewrite (apiRequest_responded w "/api/conversations" (create_init userId) hdrs Hauth created Hcreate).
  rewrite Hok1. simpl.
  destruct (Z.eqb_spec (status created) 204) as [|_]; [done|].
  rewrite Hparse1. simpl. unfold conversation_of. simpl. rewrite Hid. simpl.
  rewrite sendChatMessage_targeted. fold (create_call userId hdrs).
  rewrite (apiRequest_responded (sending (create_call userId hdrs) w) "/api/chat" (chat_init mode userText n)
             hdrs Hauth reply Hchat).
  rewrite Hok2. simpl.
  destruct (Z.eqb_spec (status reply) 204) as [|_]; [done|].
  rewrite Hparse2. simpl. unfold reply_of. simpl. rewrite Hcid, Hanswer. simpl.
  rewrite Z.eqb_refl. by rewrite reidentify_same.
Qed.

End Send.

(** C4. A [send] without an active conversation issues the
    create-conversation call before anything else. When that call
    succeeds with a conversation of id [n], the next and last request is
    the chat call whose [conversation_id] is [n]; and when the chat call
    succeeds naming [n] and answering [answer], the resulting state has
    the created conversation added in front and, appended for [n], the
    user message followed by the assistant message. From the empty state
    with [n = 42] and [answer = hi] that is exactly one conversation and
    two messages. *)
Theorem send_without_active_conversation `{Host}
    (w : World) (userId : Z) (mode : AppMode) (userText : string) (s : Sync)
    (hdrs : gmap string string)
    (Hnone : activeConversationId s = None)
    (Hauth : with_authorization (getAuthToken w) (base_headers no_options) = Return hdrs) :
  (exists rest, sent (send userId mode userText s w).2
                = (sent w ++ create_call userId hdrs :: rest)%list) /\
  (forall (created : Response) (made : list (string * Json)) (n : Z),
     network w (sent w) (create_call userId hdrs) = Responded created ->
     ok created = true -> status created <> 204 ->
     JSON_parse (text created) = Some (JObj made) ->
     own_prop "id" made = Some (JNum n) ->
     sent (send userId mode userText s w).2
       = (sent w ++ [create_call userId hdrs; chat_call mode userText hdrs n])%list /\
     forall (reply : Response) (said : list (string * Json)) (answer : string),
       network w (sent w ++ [create_call userId hdrs])%list (chat_call mode userText hdrs n)
         = Responded reply ->
       ok reply = true -> status reply <> 204 ->
       JSON_parse (text reply) = Some (JObj said) ->
       own_prop "conversation_id" said = Some (JNum n) ->
       own_prop "response" said = Some (JStr answer) ->
       (send userId mode userText s w).1 =
         Return
           ({| conversations := {| id := n; remote := JObj made |} :: conversations s;
               messages := messages s ++
                 [ {| conversationId := n; role := user; content := userText;
                      delivery := delivered |};
                   {| conversationId := n; role := assistant; content := answer;
                      delivery := delivered |} ];
               activeConversationId := Some n |}, None)).
Proof.
  split.
  - by apply send_first_creates.
  - intros created made n Hcreate Hok1 Hstatus1 Hparse1 Hid. split.
    + by eapply send_chat_follows_create.
    + intros reply said answer Hchat Hok2 Hstatus2 Hparse2 Hcid Hanswer.
      by rewrite (send_creates_then_chats_run w userId mode userText s hdrs Hnone Hauth
                    created reply made said n answer).
Qed.

Lemma send_without_active_conversation_witness :
  (send 1 personal "hello" empty (stores_with None None example_service)).1 =
    Return
      ({| conversations := [ {| id := 42; remote := JObj [("id", JNum 42)] |} ];
          messages :=
            [ {| conversationId := 42; role := user; content := "hello";
                 delivery := delivered |};
              {| conversationId := 42; role := assistant; content := "hi";
                 delivery := delivered |} ];
          activeConversationId := Some 42 |}, None) /\
  req_url <$> sent (send 1 personal "hello" empty (stores_with None None example_service)).2
    = ["http://localhost:8000/api/conversations"; "http://localhost:8000/api/chat"] /\
  req_body <$> sent (send 1 personal "hello" empty (stores_with None None example_service)).2
    = [Some (RefHost.stringify (JObj [("user_id", JNum 1)]));
       Some (RefHost.stringify
               (JObj [("message", JStr "hello"); ("mode", JStr "personal");
                      ("conversation_id", JStr "42")]))].
Proof.
  destruct (send_without_active_conversation
              (stores_with None None example_service) 1 personal "hello" empty
              {[ "Content-Type" := "application/json" ]} eq_refl)
    as (_ & Hrun); [reflexivity|].
  destruct (Hrun
      {| status := 200; text := RefHost.stringify (JObj [("id", JNum 42)]) |}
      [("id", JNum 42)] 42) as (Hsent & Hstate);
    try reflexivity; try (vm_compute; discriminate).
  split_and!.
  - apply (Hstate
      {| status := 200;
         text := RefHost.stringify
                   (JObj [("conversation_id", JNum 42); ("response", JStr "hi")]) |}
      [("conversation_id", JNum 42); ("response", JStr "hi")]);
      try reflexivity; vm_compute; discriminate.
  - rewrite Hsent. reflexivity.
  - rewrite Hsent. reflexivity.
Defined.

(** * Further properties of the request gateway *)

Lemma with_authorization_only_TypeError (token : JsValue) (hdrs : gmap string string) e :
  with_authorization token hdrs = Throw e -> e = TypeError.
Proof.
  unfold with_authorization.
  destruct (ToBoolean token); [|done].
  destruct (token ≫= ToString); [done|]. by intros [= <-].
Qed.

(** X1. Whatever its outcome, [apiRequest] writes to neither store and
    issues no request or exactly one, to the given endpoint with the
    method and the body it was handed: a failed call is not tried
    again. *)
Theorem apiRequest_single_attempt `{Host}
    (w : World) (endpoint : string) (options : RequestInit) :
  let w' := (apiRequest endpoint options w).2 in
  localStorage w' = localStorage w /\
  sessionStorage w' = sessionStorage w /\
  (sent w' = sent w \/
   exists req, sent w' = (sent w ++ [req])%list /\
               req_url req = API_BASE_URL ++ endpoint /\
               req_method req = method options /\
               req_body req = body options) /\
  (length (sent w') <= S (length (sent w)))%nat.
Proof.
  cbv zeta.
  destruct (with_authorization (getAuthToken w) (base_headers options)) as [hdrs|e] eqn:Hauth.
  - destruct (apiRequest_run w endpoint options hdrs Hauth) as [c ->]. simpl.
    split_and!; try done.
    + right. by eexists.
    + rewrite length_app. simpl. lia.
  - pose proof (with_authorization_only_TypeError _ _ _ Hauth) as ->.
    rewrite (apiRequest_conversion_throws w endpoint options Hauth). simpl.
    split_and!; try done; [by left|lia].
Qed.

(** X2. How the headers of the caller are merged into the request that
    goes out: every header of the caller other than [Authorization] is
    kept, so a [Content-Type] of the caller replaces the default one,
    which is used only when the caller gave none; a resolved token
    replaces an [Authorization] header of the caller, which is kept only
    when no token resolved. *)
Theorem apiRequest_header_merge `{Host}
    (w : World) (endpoint : string) (options : RequestInit)
    (caller hdrs : gmap string string)
    (Hcaller : headers options = Some caller)
    (Hauth : with_authorization (getAuthToken w) (base_headers options) = Return hdrs) :
  sent (apiRequest endpoint options w).2 = (sent w ++ [request endpoint options hdrs])%list /\
  (forall k v, caller !! k = Some v -> k <> "Authorization" -> hdrs !! k = Some v) /\
  (caller !! "Content-Type" = None -> hdrs !! "Content-Type" = Some "application/json") /\
  (getAuthToken w = null -> hdrs !! "Authorization" = caller !! "Authorization") /\
  (forall s, getAuthToken w = Some (JStr s) ->
             hdrs !! "Authorization" = Some ("Bearer " ++ s)).
Proof.
  assert (Hbase : forall k v, caller !! k = Some v -> base_headers options !! k = Some v).
  { intros k v Hk. unfold base_headers. rewrite Hcaller. simpl.
    by apply lookup_union_Some_l. }
  assert (Hshape : hdrs = base_headers options \/
                   exists shown, hdrs = <["Authorization" := "Bearer " ++ shown]>
                                          (base_headers options)).
  { revert Hauth. unfold with_authorization.
    destruct (ToBoolean (getAuthToken w)); [|intros [= <-]; by left].
    destruct (getAuthToken w ≫= ToString) as [shown|]; [|done].
    intros [= <-]. right. by exists shown. }
  split_and!.
  - by apply apiRequest_issues_one_request.
  - intros k v Hk Hne.
    destruct Hshape as [->|[shown ->]]; [by apply Hbase|].
    rewrite lookup_insert_ne by done. by apply Hbase.
  - intros Hnone.
    assert (base_headers options !! "Content-Type" = Some "application/json") as Hdefault.
    { unfold base_headers. rewrite Hcaller. simpl.
      rewrite lookup_union_r by done. apply lookup_singleton_eq. }
    destruct Hshape as [->|[shown ->]]; [done|].
    by rewrite lookup_insert_ne.
  - intros Htoken. unfold with_authorization in Hauth. rewrite Htoken in Hauth.
    simpl in Hauth. injection Hauth as <-.
    unfold base_headers. rewrite Hcaller. simpl.
    destruct (caller !! "Authorization") as [v|] eqn:Hv.
    + by apply lookup_union_Some_l.
    + apply lookup_union_None. split; [done|]. by apply lookup_singleton_None.
  - intros s Htoken. unfold with_authorization in Hauth.
    destruct (getAuthToken_null_or_truthy w) as [Hnull|Htruthy];
      [unfold null in Hnull; congruence|].
    rewrite Htruthy, Htoken in Hauth. simpl in Hauth. injection Hauth as <-.
    apply lookup_insert_eq.
Qed.

Lemma apiRequest_header_merge_witness :
  let w := stores_with (Some alice_user) None (answering healthy) in
  let hdrs := <["Authorization" := "Bearer tok-123"]>
                (Cases.own_headers ∪ {[ "Content-Type" := "application/json" ]}) in
  sent (apiRequest "/echo" Cases.plain_post w).2 = [request "/echo" Cases.plain_post hdrs] /\
  hdrs !! "Content-Type" = Some "text/plain" /\
  hdrs !! "X-Trace" = Some "1" /\
  hdrs !! "Authorization" = Some "Bearer tok-123".
Proof.
  cbv zeta.
  destruct (apiRequest_header_merge
              (stores_with (Some alice_user) None (answering healthy))
              "/echo" Cases.plain_post Cases.own_headers
              (<["Authorization" := "Bearer tok-123"]>
                 (Cases.own_headers ∪ {[ "Content-Type" := "application/json" ]})))
    as (Hsent & Hkept & _ & _ & Hbearer); [reflexivity..|].
  split_and!.
  - exact Hsent.
  - apply Hkept; [reflexivity|discriminate].
  - apply Hkept; [reflexivity|discriminate].
  - apply (Hbearer "tok-123"). reflexivity.
Defined.

(** X3. What a response outside the success range is turned into when
    its body decodes: the message of the [Error] is the [detail] of the
    body put through [ToString], so a [detail] that is a list of objects
    reads [[object Object]]; a body without a [detail] (an object lacking
    it, or a number, a string, a list) gives the empty message; and the
    body [null] makes the rejection a [TypeError], since reading its
    [detail] throws. *)
Theorem apiRequest_failure_detail_shapes `{Host}
    (w : World) (endpoint : string) (options : RequestInit)
    (hdrs : gmap string string) (r : Response)
    (Hauth : with_authorization (getAuthToken w) (base_headers options) = Return hdrs)
    (Hnet : network w (sent w) (request endpoint options hdrs) = Responded r)
    (Hfail : ok r = false) :
  let result := (apiRequest endpoint options w).1 in
  (forall j detail shown,
     JSON_parse (text r) = Some j -> get_prop j "detail" = Return (Some detail) ->
     ToString detail = Some shown -> result = Throw (Error shown)) /\
  (forall j,
     JSON_parse (text r) = Some j -> get_prop j "detail" = Return undefined ->
     result = Throw (Error EmptyString)) /\
  (JSON_parse (text r) = Some JNull -> result = Throw TypeError).
Proof.
  cbv zeta. rewrite (apiRequest_responded w endpoint options hdrs Hauth r Hnet), Hfail.
  simpl. unfold error_body, json. split_and!.
  - intros j detail shown -> Hdetail Hshown. rewrite Hdetail. simpl. by rewrite Hshown.
  - intros j -> Hdetail. by rewrite Hdetail.
  - by intros ->.
Qed.

Lemma apiRequest_failure_detail_shapes_witness :
  (healthCheck (stores_with None None (answering Cases.unprocessable))).1
    = Throw (Error "[object Object]") /\
  (healthCheck (stores_with None None (answering Cases.bare_failure))).1
    = Throw (Error EmptyString) /\
  (healthCheck (stores_with None None (answering Cases.null_failure))).1
    = Throw TypeError.
Proof.
  split_and!.
  - destruct (apiRequest_failure_detail_shapes
                (stores_with None None (answering Cases.unprocessable))
                "/health" no_options {[ "Content-Type" := "application/json" ]}
                Cases.unprocessable) as (Hshown & _ & _); [reflexivity..|].
    eapply Hshown; reflexivity.
  - destruct (apiRequest_failure_detail_shapes
                (stores_with None None (answering Cases.bare_failure))
                "/health" no_options {[ "Content-Type" := "application/json" ]}
                Cases.bare_failure) as (_ & Hempty & _); [reflexivity..|].
    eapply Hempty; reflexivity.
  - destruct (apiRequest_failure_detail_shapes
                (stores_with None None (answering Cases.null_failure))
                "/health" no_options {[ "Content-Type" := "application/json" ]}
                Cases.null_failure) as (_ & _ & Hnull); [reflexivity..|].
    apply Hnull. reflexivity.
Defined.

(** * Further properties of the credential and the mode *)

Lemma getAuthToken_of_local_entry `{Host} (w : World) (s : string) :
  getItem (localStorage w) APP_CONFIG.storageKeys.user = Some s -> s <> EmptyString ->
  getAuthToken w = token_of_stored s.
Proof.
  intros Hentry Hne. unfold getAuthToken. rewrite Hentry. simpl.
  by destruct (String.eqb_spec s EmptyString).
Qed.

(** X4. What [getAuthToken] makes of a non-empty remember-store entry
    that parses. From an object it returns the [token] property as it is
    stored whenever that is truthy, a string or not; a [token] that is
    missing, [null], [false], [0] or the empty string resolves to absent;
    and so does every text that parses to something other than an
    object, [null] included. *)
Theorem getAuthToken_token_field `{Host} (w : World) (s : string) (j : Json)
    (Hentry : getItem (localStorage w) APP_CONFIG.storageKeys.user = Some s)
    (Hnonempty : s <> EmptyString)
    (Hparse : JSON_parse s = Some j) :
  (forall props t, j = JObj props -> own_prop "token" props = Some t ->
                   ToBoolean (Some t) = true -> getAuthToken w = Some t) /\
  (forall props, j = JObj props -> ToBoolean (own_prop "token" props) = false ->
                 getAuthToken w = null) /\
  ((forall props, j <> JObj props) -> getAuthToken w = null).
Proof.
  rewrite (getAuthToken_of_local_entry w s Hentry Hnonempty).
  unfold token_of_stored. rewrite Hparse. split_and!.
  - intros props t -> Htoken Htruthy. simpl. rewrite Htoken.
    unfold or_else. by rewrite Htruthy.
  - intros props -> Hfalsy. simpl. unfold or_else. by rewrite Hfalsy.
  - intros Hother. destruct j; try done. by destruct (Hother props).
Qed.

Lemma getAuthToken_token_field_witness :
  getAuthToken (stores_with (Some Cases.numbered_user) (Some abc_user) unreachable)
    = Some (JNum 7) /\
  getAuthToken (stores_with (Some Cases.tokenless_user) (Some abc_user) unreachable) = null /\
  getAuthToken (stores_with (Some Cases.listed_user) (Some abc_user) unreachable) = null.
Proof.
  split_and!.
  - destruct (getAuthToken_token_field
                (stores_with (Some Cases.numbered_user) (Some abc_user) unreachable)
                Cases.numbered_user (JObj [("token", JNum 7)]))
      as (Htoken & _ & _); [reflexivity|vm_compute; discriminate|reflexivity|].
    eapply Htoken; reflexivity.
  - destruct (getAuthToken_token_field
                (stores_with (Some Cases.tokenless_user) (Some abc_user) unreachable)
                Cases.tokenless_user
                (JObj [("email", JStr "a@b.c"); ("token", JStr EmptyString)]))
      as (_ & Hfalsy & _); [reflexivity|vm_compute; discriminate|reflexivity|].
    eapply Hfalsy; reflexivity.
  - destruct (getAuthToken_token_field
                (stores_with (Some Cases.listed_user) (Some abc_user) unreachable)
                Cases.listed_user (JArr [JStr "abc"]))
      as (_ & _ & Hother); [reflexivity|vm_compute; discriminate|reflexivity|].
    apply Hother. discriminate.
Defined.

(** X5. The mode and the credential do not disturb each other: changing
    the mode leaves the resolved credential as it was, and a request,
    whatever its outcome, leaves the stored mode as it was, so that a
    provider created afterwards starts with the same mode. *)
Theorem mode_and_credential_do_not_interfere `{Host}
    (m : AppMode) (p : Provider) (w : World)
    (endpoint : string) (options : RequestInit) :
  getAuthToken (setMode m (p, w)).2 = getAuthToken w /\
  getStoredMode (apiRequest endpoint options w).2 = getStoredMode w /\
  ModeProvider (apiRequest endpoint options w).2 = ModeProvider w.
Proof.
  assert (Hmode : getStoredMode (apiRequest endpoint options w).2 = getStoredMode w).
  { unfold getStoredMode.
    destruct (with_authorization (getAuthToken w) (base_headers options))
      as [hdrs|e] eqn:Hauth.
    - by destruct (apiRequest_run w endpoint options hdrs Hauth) as [c ->].
    - pose proof (with_authorization_only_TypeError _ _ _ Hauth) as ->.
      by rewrite (apiRequest_conversion_throws w endpoint options Hauth). }
  split_and!; [|done|by unfold ModeProvider; rewrite Hmode].
  unfold getAuthToken, setMode, getItem, setItem. simpl.
  by rewrite lookup_insert_ne.
Qed.

(** X6. [getActivityLog] asks for the whole log when it is given no mode
    or the empty mode, and puts any other mode into the query as it is. *)
Theorem getActivityLog_query `{Host} (w : World) (hdrs : gmap string string)
    (Hauth : with_authorization (getAuthToken w) (base_headers no_options) = Return hdrs) :
  sent (getActivityLog None w).2
    = (sent w ++ [request "/api/activity-log" no_options hdrs])%list /\
  getActivityLog (Some EmptyString) w = getActivityLog None w /\
  (forall m, m <> EmptyString ->
     sent (getActivityLog (Some m) w).2
     = (sent w ++ [request ("/api/activity-log?mode=" ++ m) no_options hdrs])%list).
Proof.
  split_and!.
  - unfold getActivityLog. simpl. by apply apiRequest_issues_one_request.
  - reflexivity.
  - intros m Hm. unfold getActivityLog. simpl.
    destruct (String.eqb_spec m EmptyString); [done|]. simpl.
    by apply (apiRequest_issues_one_request w ("/api/activity-log?mode=" ++ m)).
Qed.

Lemma getActivityLog_query_witness :
  req_url <$> sent (getActivityLog (Some "workspace")
                      (stores_with None None (answering healthy))).2
    = ["http://localhost:8000/api/activity-log?mode=workspace"] /\
  req_url <$> sent (getActivityLog None (stores_with None None (answering healthy))).2
    = ["http://localhost:8000/api/activity-log"].
Proof.
  destruct (getActivityLog_query (stores_with None None (answering healthy))
              {[ "Content-Type" := "application/json" ]})
    as (Hnone & _ & Hmode); [reflexivity|].
  split.
  - rewrite (Hmode "workspace") by discriminate. reflexivity.
  - rewrite Hnone. reflexivity.
Defined.

(** X7. Of two changes of mode the later one alone counts: the provider,
    the mode slot and everything else are as if only it had been made; in
    particular choosing the same mode twice is choosing it once. After a
    change [isWorkspace] tells whether the chosen mode is the workspace
    one. *)
Theorem setMode_last_wins (a b : AppMode) (p : Provider) (w : World) :
  setMode b (setMode a (p, w)) = setMode b (p, w) /\
  setMode b (setMode b (p, w)) = setMode b (p, w) /\
  (isWorkspace (setMode b (p, w)).1 = true <-> b = workspace).
Proof.
  assert (Hlast : forall a', setMode b (setMode a' (p, w)) = setMode b (p, w)).
  { intros a'. unfold setMode, setItem. simpl. by rewrite insert_insert_eq. }
  split_and!; [apply Hlast..|by destruct b].
Qed.

(** * The activity log page *)

(** X8. A (re)load of the activity log never fails and always ends with
    the spinner off and the chosen filter untouched. When the request
    resolves the entries are what it resolved to; when it is rejected,
    for whatever reason, the entries shown before stay. The page changes
    the world only through that one call. *)
Theorem activity_load_outcome `{Host} (p : AIActivityLog.Page) (w : World) :
  let fetched := getActivityLog None w in
  exists p',
    AIActivityLog.load p w = (Return p', fetched.2) /\
    AIActivityLog.loading p' = false /\
    AIActivityLog.filter p' = AIActivityLog.filter p /\
    (forall data, fetched.1 = Return data -> AIActivityLog.entries p' = data) /\
    (forall e, fetched.1 = Throw e -> AIActivityLog.entries p' = AIActivityLog.entries p).
Proof.
  cbv zeta. unfold AIActivityLog.load, bind, try_catch, ret.
  destruct (getActivityLog None w) as [[data|e] w']; simpl;
    eexists; split_and!; try done; by intros ? [= ->].
Qed.

Section ActivitySources.
Import AIActivityLog.

Lemma filter_keeps_all {A} (P : A -> Prop) `{forall x, Decision (P x)} (l : list A) :
  (forall x, x ∈ l -> P x) -> base.filter P l = l.
Proof.
  induction l as [|x l IH]; [done|]. intros Hall.
  rewrite filter_cons_True by (apply Hall; by left).
  f_equal. apply IH. intros y Hy. apply Hall. by right.
Qed.

Lemma elem_of_distinct (xs : list string) (x : string) : x ∈ distinct xs <-> x ∈ xs.
Proof.
  induction xs as [|y ys IH]; [done|]. simpl.
  rewrite !elem_of_cons, list_elem_of_filter, IH.
  destruct (decide (x = y)); naive_solver.
Qed.

Lemma NoDup_distinct (xs : list string) : NoDup (distinct xs).
Proof.
  induction xs as [|y ys IH]; [constructor|]. simpl.
  apply NoDup_cons. split.
  - rewrite list_elem_of_filter. naive_solver.
  - by apply NoDup_filter.
Qed.

Lemma count_by_sources (shown : list ActivityLogEntry) (l : list string) :
  NoDup l ->
  sum_list_with (fun s => length (of_source s shown)) l
  = length (base.filter (fun e => source e ∈ l) shown).
Proof.
  induction 1 as [|s l Hs Hl IH]; simpl.
  - induction shown as [|e shown IHs]; [done|].
    rewrite filter_cons_False; [done|]. by intros ?%elem_of_nil.
  - rewrite IH. clear IH. unfold of_source.
    induction shown as [|e shown IHs]; [done|].
    rewrite !filter_cons.
    destruct (decide (source e = s)) as [Heq|Hne].
    + rewrite decide_False by (by rewrite Heq).
      rewrite decide_True by (rewrite Heq; apply elem_of_cons; by left).
      simpl. by rewrite IHs.
    + destruct (decide (source e ∈ l)) as [Hin|Hout].
      * rewrite decide_True by (apply elem_of_cons; by right).
        simpl. rewrite <- IHs. lia.
      * rewrite decide_False; [done|].
        rewrite elem_of_cons. naive_solver.
Qed.

(** X9. The source buttons of the activity log: [sources] lists every
    source that occurs among the entries exactly once, beginning with the
    source of the first entry, and the numbers shown on the buttons, one
    per source, add up to the number of entries shown on the [All]
    button. *)
Theorem activity_sources_partition (shown : list ActivityLogEntry) :
  NoDup (sources shown) /\
  (forall s, s ∈ sources shown <-> exists e, e ∈ shown /\ source e = s) /\
  head (sources shown) = source <$> head shown /\
  sum_list_with (fun s => length (of_source s shown)) (sources shown) = length shown.
Proof.
  unfold sources. split_and!.
  - apply NoDup_distinct.
  - intros s. rewrite elem_of_distinct, list_elem_of_fmap. naive_solver.
  - by destruct shown.
  - rewrite count_by_sources by apply NoDup_distinct.
    f_equal. apply filter_keeps_all.
    intros e He. apply elem_of_distinct, list_elem_of_fmap. by exists e.
Qed.

(** X10. What is listed under a chosen source: with no source chosen,
    or with the empty source chosen, every entry; with any other source
    chosen, exactly the entries of that source, in the order they have in
    the log. A click on the button of the chosen source releases it, and
    a click on any other button chooses that one; so a click on the
    button of the empty source, which counts the entries without a
    source, still lists every entry. *)
Theorem activity_filtered_selection (chosen : option string) (shown : list ActivityLogEntry) :
  (item_truthy chosen = false -> filtered chosen shown = shown) /\
  (forall s, s <> EmptyString ->
     filtered (Some s) shown = of_source s shown /\
     sublist (filtered (Some s) shown) shown /\
     (forall e, e ∈ filtered (Some s) shown <-> e ∈ shown /\ source e = s)) /\
  (forall s, toggle (Some s) s = None) /\
  (forall s, chosen <> Some s -> toggle chosen s = Some s) /\
  filtered (toggle None EmptyString) shown = shown.
Proof.
  split_and!.
  - intros Hfalsy. unfold filtered. by rewrite Hfalsy.
  - intros s Hs.
    assert (Heq : filtered (Some s) shown = of_source s shown).
    { unfold filtered. simpl. by destruct (String.eqb_spec s EmptyString). }
    rewrite Heq. unfold of_source. split_and!; [done|apply sublist_filter; apply _|].
    intros e. rewrite list_elem_of_filter. naive_solver.
  - intros s. unfold toggle. by rewrite bool_decide_eq_true_2.
  - intros s Hne. unfold toggle. by rewrite bool_decide_eq_false_2.
  - reflexivity.
Qed.

End ActivitySources.

(** * The project pages *)

(** X11. Loading a project. Without a project id in the route, or with
    the empty one, nothing is requested and the page is left as it is,
    spinner included. With an id the load never fails and ends with the
    spinner off. Any rejection of the request, an unreachable network as
    much as a missing project, is shown as [Project not found] and keeps
    the data held before; a resolved request replaces the data and keeps
    the error held before, and when what it resolved to is falsy and no
    error is held the page reads [Something went wrong]. *)
Theorem project_load_outcome `{Host}
    (projectId : option string) (p : ProjectDetailPage.Page) (w : World) :
  (item_truthy projectId = false -> ProjectDetailPage.load projectId p w = (Return p, w)) /\
  (forall pid, projectId = Some pid -> pid <> EmptyString ->
     let fetched := getProjectDetail pid w in
     exists p',
       ProjectDetailPage.load projectId p w = (Return p', fetched.2) /\
       ProjectDetailPage.loading p' = false /\
       ProjectDetailPage.view p' <> ProjectDetailPage.Spinner /\
       (forall e, fetched.1 = Throw e ->
          ProjectDetailPage.data p' = ProjectDetailPage.data p /\
          ProjectDetailPage.error p' = Some "Project not found" /\
          ProjectDetailPage.view p' = ProjectDetailPage.Problem "Project not found") /\
       (forall detail, fetched.1 = Return detail ->
          ProjectDetailPage.data p' = detail /\
          ProjectDetailPage.error p' = ProjectDetailPage.error p /\
          (ToBoolean detail = false -> item_truthy (ProjectDetailPage.error p) = false ->
           ProjectDetailPage.view p'
           = ProjectDetailPage.Problem "Something went wrong"))).
Proof.
  split.
  - intros Hfalsy. unfold ProjectDetailPage.load. by rewrite Hfalsy.
  - intros pid -> Hpid. cbv zeta.
    unfold ProjectDetailPage.load, bind, try_catch, ret. simpl.
    destruct (String.eqb_spec pid EmptyString) as [|_]; [done|]. simpl.
    destruct (getProjectDetail pid w) as [[detail|e] w']; simpl;
      eexists; (split; [reflexivity|]); simpl; split_and!; try done.
    + unfold ProjectDetailPage.view. simpl. by repeat case_match.
    + intros d [= <-]. split_and!; try done.
      intros Hfalsy Hnone. unfold ProjectDetailPage.view. simpl.
      by rewrite Hfalsy, Hnone.
Qed.

Lemma project_load_outcome_witness :
  (ProjectDetailPage.load (Some "velocity") ProjectDetailPage.mount
     (stores_with None None unreachable)).1
  = Return {| ProjectDetailPage.data := null;
              ProjectDetailPage.loading := false;
              ProjectDetailPage.error := Some "Project not found" |} /\
  ProjectDetailPage.load (Some EmptyString) ProjectDetailPage.mount
     (stores_with None None unreachable)
  = (Return ProjectDetailPage.mount, stores_with None None unreachable).
Proof.
  destruct (project_load_outcome (Some "velocity") ProjectDetailPage.mount
              (stores_with None None unreachable)) as (_ & Hload).
  destruct (project_load_outcome (Some EmptyString) ProjectDetailPage.mount
              (stores_with None None unreachable)) as (Hidle & _).
  split.
  - destruct (Hload "velocity" eq_refl) as (p' & Hrun & Hoff & _ & Hfailed & _);
      [discriminate|].
    destruct (Hfailed TypeError) as (Hdata & Herror & _); [reflexivity|].
    rewrite Hrun. simpl. destruct p' as [d l e]. simpl in *. by subst.
  - apply Hidle. reflexivity.
Defined.

(** X12. Loading the dashboard. Both requests are made, the one for the
    priorities whatever becomes of the one for the projects, and nothing
    else is asked of the remote side. The load never fails and ends with
    the spinner off; projects and priorities are replaced together when
    both requests resolve, and both stay as they were when either is
    rejected. *)
Theorem dashboard_all_or_nothing `{Host} (p : CompanyDashboard.Page) (w : World) :
  let first := getProjects w in
  let second := getPriorities first.2 in
  exists p',
    CompanyDashboard.load p w = (Return p', second.2) /\
    CompanyDashboard.loading p' = false /\
    (forall a b, first.1 = Return a -> second.1 = Return b ->
       CompanyDashboard.projects p' = a /\ CompanyDashboard.priorities p' = b) /\
    (forall e, first.1 = Throw e \/ second.1 = Throw e ->
       CompanyDashboard.projects p' = CompanyDashboard.projects p /\
       CompanyDashboard.priorities p' = CompanyDashboard.priorities p) /\
    (forall hdrs,
       with_authorization (getAuthToken w) (base_headers no_options) = Return hdrs ->
       sent second.2 = (sent w ++ [request "/api/projects" no_options hdrs;
                                   request "/api/priorities" no_options hdrs])%list).
Proof.
  cbv zeta.
  unfold CompanyDashboard.load, CompanyDashboard.Promise_all, bind, try_catch, ret.
  assert (Hsent : forall hdrs,
    with_authorization (getAuthToken w) (base_headers no_options) = Return hdrs ->
    sent (getPriorities (getProjects w).2).2
    = (sent w ++ [request "/api/projects" no_options hdrs;
                  request "/api/priorities" no_options hdrs])%list).
  { intros hdrs Hauth. unfold getProjects, getPriorities.
    destruct (apiRequest_run w "/api/projects" no_options hdrs Hauth) as [c ->]. simpl.
    destruct (apiRequest_run (sending (request "/api/projects" no_options hdrs) w)
                "/api/priorities" no_options hdrs Hauth) as [c' ->]. simpl.
    by rewrite <- (assoc_L (++)). }
  destruct (getProjects w) as [[a|e] w1]; simpl in *;
    destruct (getPriorities w1) as [[b|e'] w2]; simpl in *;
    eexists; (split; [reflexivity|]); simpl; split_and!; try done;
    try (by intros ? ? [= <-] [= <-]); try (by intros ? [?|?]).
Qed.

(** * The settings page and the route guard *)

(** X13. Toggling the theme flips [isDark] and brings the page, the
    class list of the document and the stored theme into agreement: the
    [dark] class is present exactly when [isDark] holds, and the [theme]
    slot holds [dark] or [light] accordingly, also when they disagreed
    before. No other class is touched, no request is made, and the stored
    mode and the resolved credential stay as they were. Two toggles in a
    row give back the page, and the document too when it agreed with the
    page to begin with. *)
Theorem toggleTheme_consistent `{Host}
    (p : Settings.Page) (d : Settings.Document) (w : World) :
  let after := Settings.toggleTheme (p, d, w) in
  let p' := after.1.1 in
  let d' := after.1.2 in
  let w' := after.2 in
  Settings.isDark p' = negb (Settings.isDark p) /\
  ("dark" ∈ Settings.classList d' <-> Settings.isDark p' = true) /\
  getItem (localStorage w') "theme"
    = Some (if Settings.isDark p' then "dark" else "light") /\
  Settings.classList d' ∖ {[ "dark" ]} = Settings.classList d ∖ {[ "dark" ]} /\
  sent w' = sent w /\
  getStoredMode w' = getStoredMode w /\
  getAuthToken w' = getAuthToken w /\
  (Settings.toggleTheme after).1.1 = p /\
  (("dark" ∈ Settings.classList d <-> Settings.isDark p = true) ->
   (Settings.toggleTheme after).1.2 = d).
Proof.
  cbv zeta. unfold Settings.toggleTheme.
  destruct p as [dark opened n e pw busy failure success scheduled].
  destruct d as [classes]. simpl.
  destruct dark; simpl; unfold getItem, setItem; simpl;
    rewrite ?lookup_insert_eq; split_and!; try done; try set_solver;
    try (unfold getStoredMode, getAuthToken, getItem; simpl;
         by rewrite !lookup_insert_ne).
  - intros Hagree. f_equal. apply set_eq. intros x.
    destruct (decide (x = "dark")) as [->|]; set_solver.
  - intros Hagree. f_equal. apply set_eq. intros x.
    destruct (decide (x = "dark")) as [->|]; [|set_solver].
    split; [set_solver|]. intros Hin. by apply Hagree in Hin.
Qed.

(** X14. Saving the profile. Under the authentication context that is
    shipped, inside or outside of its provider, the save reports success
    whatever the form holds: the success text is set, no error is shown,
    the busy flag is off again and the closing of the dialog is scheduled
    1500 ms ahead; yet no request is made and no store is written, and
    the form fields are left as typed. In general, when the
    [updateProfile] of the context rejects with an [Error], its message
    becomes the error shown, no success is reported and nothing is
    scheduled; and with no user in the context the handler does nothing
    at all. *)
Theorem profile_save_outcome `{Host}
    (inside : bool) (engine_text : JsExn -> string) (p : Settings.Page) (w : World) :
  (exists p',
     Settings.handleUpdateProfile (useAuth (if inside then Some AuthProvider else None))
       engine_text p w = (Return p', w) /\
     Settings.profileSuccess p' = Some "Profile updated successfully!" /\
     Settings.profileError p' = None /\
     Settings.isUpdatingProfile p' = false /\
     Settings.timers p' = (Settings.timers p ++ [(1500, Settings.CloseEditProfile)])%list /\
     Settings.editName p' = Settings.editName p /\
     Settings.editEmail p' = Settings.editEmail p /\
     Settings.editPassword p' = Settings.editPassword p /\
     Settings.isEditProfileOpen p' = Settings.isEditProfileOpen p) /\
  (forall (auth : AuthContextType) (u : User) (message : string) (w' : World),
     AuthContext.user auth = Some u ->
     (forall data, updateProfile auth data w = (Throw (Error message), w')) ->
     exists p',
       Settings.handleUpdateProfile auth engine_text p w = (Return p', w') /\
       Settings.profileError p' = Some message /\
       Settings.profileSuccess p' = None /\
       Settings.isUpdatingProfile p' = false /\
       Settings.timers p' = Settings.timers p) /\
  (forall auth : AuthContextType,
     AuthContext.user auth = None -> Settings.handleUpdateProfile auth engine_text p w = (Return p, w)).
Proof.
  split_and!.
  - destruct inside; eexists; (split; [reflexivity|]); by split_and!.
  - intros auth u message w' Huser Hrejects.
    unfold Settings.handleUpdateProfile, bind, try_catch, ret. rewrite Huser.
    rewrite Hrejects. eexists. split; [reflexivity|]. by split_and!.
  - intros auth Huser. unfold Settings.handleUpdateProfile. by rewrite Huser.
Qed.

(** X15. The guard of the protected routes. With the development switch
    on, as it is configured, the guard renders the page whatever the
    authentication context says. With the switch off it renders the page
    exactly when the context is neither loading nor unauthenticated, the
    loading screen taking precedence over the redirection to [/login].
    Under the authentication context that is shipped, inside or outside
    of its provider, the guard renders the page with the switch in either
    position. *)
Theorem protected_routes_are_open `{Host} (inside bypassLogin : bool) (auth : AuthContextType) :
  App.ProtectedRoute (Some auth) = App.Children /\
  App.ProtectedRoute None = App.Children /\
  (App.ProtectedRoute_under false auth = App.Children <->
   isLoading auth = false /\ isAuthenticated auth = true) /\
  (isLoading auth = true -> App.ProtectedRoute_under false auth = App.LoadingScreen) /\
  (isLoading auth = false -> isAuthenticated auth = false ->
   App.ProtectedRoute_under false auth = App.Navigate "/login") /\
  App.ProtectedRoute_under bypassLogin
    (useAuth (if inside then Some AuthProvider else None)) = App.Children.
Proof.
  unfold App.ProtectedRoute, App.ProtectedRoute_under. simpl.
  split_and!; try done.
  - destruct (isLoading auth), (isAuthenticated auth); simpl; naive_solver.
  - by intros ->.
  - by intros -> ->.
  - by destruct inside, bypassLogin.
Qed.

(** * What a resolved call tells *)

(** X16. When [apiRequest] resolves, a request went out and the remote
    side answered it with a status in the success range; the value is
    [undefined] exactly when that status was 204, and is otherwise the
    decoded body of that answer. A call never resolves on an unreachable
    network or on a status outside the success range. *)
Theorem apiRequest_resolves_only_on_success `{Host}
    (w : World) (endpoint : string) (options : RequestInit) (v : JsValue)
    (Hresolved : (apiRequest endpoint options w).1 = Return v) :
  exists hdrs r,
    with_authorization (getAuthToken w) (base_headers options) = Return hdrs /\
    network w (sent w) (request endpoint options hdrs) = Responded r /\
    ok r = true /\
    (v = undefined <-> status r = 204) /\
    (forall j, v = Some j -> JSON_parse (text r) = Some j).
Proof.
  destruct (with_authorization (getAuthToken w) (base_headers options)) as [hdrs|e] eqn:Hauth.
  2: { pose proof (with_authorization_only_TypeError _ _ _ Hauth) as ->.
       by rewrite (apiRequest_conversion_throws w endpoint options Hauth) in Hresolved. }
  destruct (network w (sent w) (request endpoint options hdrs)) as [|r] eqn:Hnet.
  { by rewrite (apiRequest_unreachable w endpoint options hdrs Hauth Hnet) in Hresolved. }
  rewrite (apiRequest_responded w endpoint options hdrs Hauth r Hnet) in Hresolved.
  simpl in Hresolved. exists hdrs, r.
  destruct (ok r); simpl in Hresolved.
  - split_and!; try done.
    + destruct (Z.eqb_spec (status r) 204) as [Heq|Hne].
      * by injection Hresolved as <-.
      * destruct (JSON_parse (text r)); [|done]. injection Hresolved as <-.
        split; [done|]. by intros ?.
    + intros j ->. destruct (status r =? 204); [done|].
      destruct (JSON_parse (text r)); [|done]. by injection Hresolved as ->.
  - destruct (get_prop (error_body r) "detail") as [detail|e]; [|done].
    by destruct (new_Error detail).
Qed.

Lemma apiRequest_resolves_only_on_success_witness :
  exists hdrs r,
    with_authorization (getAuthToken (stores_with None None (answering healthy)))
      (base_headers no_options) = Return hdrs /\
    network (stores_with None None (answering healthy)) []
      (request "/health" no_options hdrs) = Responded r /\
    ok r = true /\
    (Some (JObj [("status", JStr "ok")]) = undefined <-> status r = 204) /\
    (forall j, Some (JObj [("status", JStr "ok")]) = Some j -> JSON_parse (text r) = Some j).
Proof.
  apply (apiRequest_resolves_only_on_success
           (stores_with None None (answering healthy)) "/health" no_options
           (Some (JObj [("status", JStr "ok")]))).
  reflexivity.
Defined.

(** * The integrations page *)

(** X17. Loading the integrations never fails and ends with the spinner
    off. A resolved request replaces the list and clears an error shown
    before; a rejected one keeps the list and shows the message of the
    rejection. So when the remote side answers outside the success range
    with an error body whose [detail] is a text, that text is what the
    page shows. *)
Theorem integrations_load_outcome `{Host}
    (engine_text : JsExn -> string) (p : Integrations.Page) (w : World) :
  let fetched := getIntegrationStatus w in
  exists p',
    Integrations.loadIntegrations engine_text p w = (Return p', fetched.2) /\
    Integrations.isLoading p' = false /\
    (forall data, fetched.1 = Return data ->
       Integrations.integrations p' = data /\ Integrations.error p' = None) /\
    (forall e, fetched.1 = Throw e ->
       Integrations.integrations p' = Integrations.integrations p /\
       Integrations.error p' = Some (Settings.message_of engine_text e)) /\
    (forall hdrs r props detail,
       with_authorization (getAuthToken w) (base_headers no_options) = Return hdrs ->
       network w (sent w) (request "/api/integrations/status" no_options hdrs)
         = Responded r ->
       ok r = false ->
       JSON_parse (text r) = Some (JObj props) ->
       own_prop "detail" props = Some (JStr detail) ->
       Integrations.error p' = Some detail).
Proof.
  cbv zeta.
  assert (Hdetail : forall hdrs r props detail,
    with_authorization (getAuthToken w) (base_headers no_options) = Return hdrs ->
    network w (sent w) (request "/api/integrations/status" no_options hdrs) = Responded r ->
    ok r = false ->
    JSON_parse (text r) = Some (JObj props) ->
    own_prop "detail" props = Some (JStr detail) ->
    (getIntegrationStatus w).1 = Throw (Error detail)).
  { intros hdrs r props detail Hauth Hnet Hfail Hparse Hown. unfold getIntegrationStatus.
    rewrite (apiRequest_responded w _ no_options hdrs Hauth r Hnet), Hfail. simpl.
    unfold error_body, json. rewrite Hparse. simpl. by rewrite Hown. }
  unfold Integrations.loadIntegrations, bind, try_catch, ret.
  destruct (getIntegrationStatus w) as [[data|e] w']; simpl in *;
    eexists; (split; [reflexivity|]); simpl; split_and!; try done.
  - by intros ? [= ->].
  - intros hdrs r props detail Hauth Hnet Hfail Hparse Hown.
    by specialize (Hdetail hdrs r props detail Hauth Hnet Hfail Hparse Hown).
  - by intros ? [= ->].
  - intros hdrs r props detail Hauth Hnet Hfail Hparse Hown.
    specialize (Hdetail hdrs r props detail Hauth Hnet Hfail Hparse Hown).
    by injection Hdetail as ->.
Qed.
